(** * Book controller of the library-management backend

    A shallow embedding of [src/controllers/bookController.js] and the
    properties of its handlers.

    Modelling conventions.
    - A number of the language is a double; the embedding holds its integer
      value and computes on it exactly.  The two agree as long as operands
      and results are safe integers, of magnitude below 2^53 ([safe_integer]);
      beyond that the program rounds (2^53 + 1 is 2^53 again) and the
      embedding does not.  A statement that pins down a computed number
      carries that range as a hypothesis.
    - A [Date] is its millisecond time value, an integer; a time value of
      the language lies within 8.64e15 of the epoch ([valid_time]).  The
      subtraction and the comparison of two dates are those of the time
      values, and the quotient [Math.ceil (ms / 86400000)] is taken exactly,
      which agrees with the double-precision computation for every
      difference below 2^53.
    - An [ObjectId] is the 96-bit number it stands for.
    - The two collections are lists in natural (insertion) order.
    - A request body is a JSON object whose fields, when given, carry a value
      of the type the schema declares for them (a string or an integer);
      [Undefined] is an absent key and [Null] a JSON null.
    - A handler is a function from the store to a response and a store; the
      [try]/[catch] of the source is the error monad [Async] below. *)

From Stdlib Require Import ZArith NArith List String Ascii Bool Lia.
From Stdlib Require Import DecimalString.
Import ListNotations.

#[local] Open Scope Z_scope.

(** ** JavaScript values of a request *)

Definition ObjectId := N.
Definition Date := Z.

Inductive field (A : Type) : Type :=
| Undefined
| Null
| Given (a : A).
Arguments Undefined {A}.
Arguments Null {A}.
Arguments Given {A} a.

(** [ToBoolean] of the language: the empty string and 0 are falsy. *)
Class ToBoolean (A : Type) := truthy : A -> bool.

#[export] Instance string_ToBoolean : ToBoolean string :=
  fun s => negb (String.eqb s EmptyString).

#[export] Instance Z_ToBoolean : ToBoolean Z :=
  fun z => negb (z =? 0).

Definition field_truthy {A} `{ToBoolean A} (x : field A) : bool :=
  match x with
  | Given a => truthy a
  | _ => false
  end.

(** [x || y] on two request fields. *)
Definition js_or {A} `{ToBoolean A} (x y : field A) : field A :=
  if field_truthy x then x else y.

(** [x || d] where [d] is a value already held by a document. *)
Definition js_or_doc {A} `{ToBoolean A} (x : field A) (d : A) : A :=
  match x with
  | Given a => if truthy a then a else d
  | _ => d
  end.

(** [x ?? d]: only [undefined] and [null] fall through. *)
Definition nullish {A} (x : field A) (d : A) : A :=
  match x with
  | Given a => a
  | _ => d
  end.

(** [x !== undefined ? x : d] for a nullable path. *)
Definition defined_or {A} (x : field A) (d : option A) : option A :=
  match x with
  | Undefined => d
  | Null => None
  | Given a => Some a
  end.

(** The default of a destructuring pattern, [{ x = d }]. *)
Definition default {A} (x : option A) (d : A) : A :=
  match x with
  | Some a => a
  | None => d
  end.

(** A number of the language as [Math.ceil] of a quotient can give it. *)
Inductive JsNumber : Type :=
| Finite (z : Z)
| Infinity
| NaN.

(** Ceiling of the exact quotient [a / b], for [b] of either sign. *)
Definition ceil_div (a b : Z) : Z := - ((- a) / b).

(** [Math.ceil (a / b)]. *)
Definition Math_ceil_div (a b : Z) : JsNumber :=
  if b =? 0 then (if a =? 0 then NaN else Infinity)
  else Finite (ceil_div a b).

(** The integers on which the double arithmetic of the language is exact
    ([Number.isSafeInteger]). *)
Definition safe_integer (z : Z) : Prop := - 2 ^ 53 < z < 2 ^ 53.

(** The time values a Date of the language can hold. *)
Definition valid_time (t : Z) : Prop :=
  - 8640000000000000 <= t <= 8640000000000000.

(** Decimal rendering of an integer inside a template literal. *)
Definition Z_to_string (z : Z) : string := NilZero.string_of_int (Z.to_int z).

(** ** Documents *)

Inductive BookStatus : Type := Available | Borrowed.

Definition BookStatus_eqb (a b : BookStatus) : bool :=
  match a, b with
  | Available, Available | Borrowed, Borrowed => true
  | _, _ => false
  end.

Definition BookStatus_to_string (a : BookStatus) : string :=
  match a with
  | Available => "Available"
  | Borrowed => "Borrowed"
  end.

Module Book.
(** Modelled from the spec: the Book schema ([models/Book.js] is not part
    of the sources).  Fields and types follow section 3 of the
    specification; [status] defaults to [Available], [borrower],
    [borrowedAt], [dueDate], [bookImage] are optional and [isbn] carries a
    unique index. *)
Record t : Type := mk {
  _id : ObjectId;
  title : string;
  author : string;
  category : string;
  isbn : string;
  description : option string;
  bookImage : option string;
  availableCopies : Z;
  totalCopies : Z;
  status : BookStatus;
  borrower : option ObjectId;
  borrowedAt : option Date;
  dueDate : option Date
}.
End Book.

Module Borrow.
(** Modelled from the spec: the Borrow schema ([models/Borrow.js] is not
    part of the sources); [returnedAt] is null while the borrow is open and
    [fine] defaults to 0. *)
Record t : Type := mk {
  _id : ObjectId;
  user : ObjectId;
  book : ObjectId;
  borrowedAt : Date;
  dueDate : Date;
  returnedAt : option Date;
  fine : Z
}.
End Borrow.

(** [req.body] of Add and Update. *)
Module Body.
Record t : Type := mk {
  title : field string;
  author : field string;
  category : field string;
  isbn : field string;
  description : field string;
  availableCopies : field Z;
  totalCopies : field Z
}.
End Body.

(** [req.query] of the listing.  [page] and [limit] hold the integer that
    [Number] gives the parameter, [None] when the parameter is absent. *)
Module Query.
Record t : Type := mk {
  search : option string;
  category : option string;
  author : option string;
  status : option string;
  page : option Z;
  limit : option Z
}.
End Query.

(** ** Store, errors and responses *)

Record Store : Type := mkStore {
  books : list Book.t;
  borrows : list Borrow.t;
  nextId : ObjectId
}.

Inductive Error : Type :=
| CastError (value : string)          (* Cast to ObjectId failed *)
| ValidationError (path : string)     (* a required path is missing *)
| DuplicateKey (key : string)         (* E11000 on the isbn index *)
| BadSkip (n : Z)                     (* skip value must be non-negative *)
| TypeError (property : string).      (* Cannot read properties of null *)

(** One entry of the user history. *)
Record HistoryEntry : Type := mkHistoryEntry {
  h_id : ObjectId;
  h_bookId : ObjectId * string;
  h_title : string;
  h_author : string;
  h_category : string;
  h_status : string;
  h_borrowedAt : Date;
  h_dueDate : Date;
  h_returnedAt : option Date;
  h_fine : Z
}.

Inductive Json : Type :=
| Message (message : string)
| ErrorMessage (error : Error)
| BookDoc (b : Book.t)
| BorrowedOk (message title : string) (borrowedAt dueDate : Date)
| ReturnedOk (message fine : string)
| BookPage (totalBooks : Z) (currentPage : Z) (totalPages : JsNumber)
           (page : list Book.t)
| History (entries : list HistoryEntry).

Record Response : Type := mkResponse {
  statusCode : Z;
  json : Json
}.

(** ** The [try]/[catch] monad over the store *)

Inductive Outcome (A : Type) : Type :=
| Resolved (a : A) (s : Store)
| Threw (e : Error) (s : Store).
Arguments Resolved {A} a s.
Arguments Threw {A} e s.

Definition Async (A : Type) : Type := Store -> Outcome A.

Definition ret {A} (a : A) : Async A := fun s => Resolved a s.

Definition throw {A} (e : Error) : Async A := fun s => Threw e s.

Definition bind {A B} (m : Async A) (k : A -> Async B) : Async B :=
  fun s =>
    match m s with
    | Resolved a s' => k a s'
    | Threw e s' => Threw e s'
    end.

Notation "x <- m ;; k" := (bind m (fun x => k))
  (at level 61, m at next level, right associativity).
Notation "m ;;; k" := (bind m (fun _ => k))
  (at level 61, right associativity).

Definition respond (code : Z) (j : Json) : Async Response :=
  ret (mkResponse code j).

Definition Handler : Type := Store -> Response * Store.

(** [try { m } catch (error) { res.status(500).json({message: error.message}) }] *)
Definition try_catch_500 (m : Async Response) : Handler :=
  fun s =>
    match m s with
    | Resolved r s' => (r, s')
    | Threw e s' => (mkResponse 500 (ErrorMessage e), s')
    end.

(** ** Collection operations of the store *)

Definition rupee : string :=
  String (ascii_of_nat 226) (String (ascii_of_nat 130)
    (String (ascii_of_nat 185) EmptyString)).

Definition set_books (l : list Book.t) (s : Store) : Store :=
  mkStore l (borrows s) (nextId s).

Definition set_borrows (l : list Borrow.t) (s : Store) : Store :=
  mkStore (books s) l (nextId s).

(** The identifier a freshly constructed document receives. *)
Definition new_ObjectId : Async ObjectId :=
  fun s => Resolved (nextId s) (mkStore (books s) (borrows s) (N.succ (nextId s))).

Definition has_id (oid : ObjectId) (b : Book.t) : bool :=
  N.eqb (Book._id b) oid.

Definition lookup_book (oid : ObjectId) (l : list Book.t) : option Book.t :=
  find (has_id oid) l.

Definition replace_book (b : Book.t) (l : list Book.t) : list Book.t :=
  map (fun x => if has_id (Book._id b) x then b else x) l.

Definition remove_book (oid : ObjectId) (l : list Book.t) : list Book.t :=
  filter (fun x => negb (has_id oid x)) l.

(** A document other than [oid] already holds [isbn]. *)
Definition isbn_taken (oid : ObjectId) (isbn : string) (l : list Book.t) : bool :=
  existsb (fun x => negb (has_id oid x) && String.eqb (Book.isbn x) isbn) l.

(** A required path of a new document. *)
Definition required {A} (path : string) (x : field A) : Async A :=
  match x with
  | Given a => ret a
  | _ => throw (ValidationError path)
  end.

(** [new Book(bookData)]: the schema fills [status] and leaves the borrow
    fields unset. *)
Definition Book_new (title author category isbn : field string)
    (description : string) (availableCopies totalCopies : field Z)
    (bookImage : option string) : Async Book.t :=
  oid <- new_ObjectId ;;
  title <- required "title" title ;;
  author <- required "author" author ;;
  category <- required "category" category ;;
  isbn <- required "isbn" isbn ;;
  availableCopies <- required "availableCopies" availableCopies ;;
  totalCopies <- required "totalCopies" totalCopies ;;
  ret (Book.mk oid title author category isbn (Some description) bookImage
         availableCopies totalCopies Available None None None).

(** [newBook.save()] of a document that is not yet stored.  The schema is
    taken to hold no validator beyond the types and the required paths, so
    the save succeeds unless the isbn index refuses the document. *)
Definition Book_insert (b : Book.t) : Async Book.t :=
  fun s =>
    if isbn_taken (Book._id b) (Book.isbn b) (books s)
    then Threw (DuplicateKey (Book.isbn b)) s
    else Resolved b (set_books (books s ++ [b]) s).

(** [book.save()] of a loaded document [old] whose paths now read [new]; only
    modified paths are written, so the isbn index is consulted only when the
    isbn changed. *)
Definition Book_save (old new : Book.t) : Async Book.t :=
  fun s =>
    if negb (String.eqb (Book.isbn old) (Book.isbn new))
       && isbn_taken (Book._id new) (Book.isbn new) (books s)
    then Threw (DuplicateKey (Book.isbn new)) s
    else Resolved new (set_books (replace_book new (books s)) s).

Definition Book_deleteOne (b : Book.t) : Async unit :=
  fun s => Resolved tt (set_books (remove_book (Book._id b) (books s)) s).

(** [new Borrow({user, book, borrowedAt, dueDate})]. *)
Definition Borrow_new (user book : ObjectId) (borrowedAt dueDate : Date)
  : Async Borrow.t :=
  oid <- new_ObjectId ;;
  ret (Borrow.mk oid user book borrowedAt dueDate None 0).

Definition Borrow_insert (r : Borrow.t) : Async Borrow.t :=
  fun s => Resolved r (set_borrows (borrows s ++ [r]) s).

(** The filter [{book, user, returnedAt: null}]. *)
Definition open_borrow_of (book user : ObjectId) (r : Borrow.t) : bool :=
  N.eqb (Borrow.book r) book && N.eqb (Borrow.user r) user
  && match Borrow.returnedAt r with None => true | Some _ => false end.

Definition Borrow_findOne (book user : ObjectId) : Async (option Borrow.t) :=
  fun s => Resolved (find (open_borrow_of book user) (borrows s)) s.

Definition replace_borrow (r : Borrow.t) (l : list Borrow.t) : list Borrow.t :=
  map (fun x => if N.eqb (Borrow._id x) (Borrow._id r) then r else x) l.

Definition Borrow_save (r : Borrow.t) : Async Borrow.t :=
  fun s => Resolved r (set_borrows (replace_borrow r (borrows s)) s).

(** [borrower && borrower.toString() === user.toString()] *)
Definition is_borrower (b : Book.t) (user : ObjectId) : bool :=
  match Book.borrower b with
  | Some o => N.eqb o user
  | None => false
  end.

(** The query object the listing builds. *)
Record BookFilter : Type := mkBookFilter {
  f_or_regex : option string;
  f_category : option string;
  f_author : option string;
  f_status : option string
}.

Definition option_truthy (x : option string) : option string :=
  match x with
  | Some s => if truthy s then Some s else None
  | None => None
  end.

Definition exact (x : option string) (v : string) : bool :=
  match x with
  | Some s => String.eqb v s
  | None => true
  end.

(** Stable insertion sort, newest [borrowedAt] first. *)
Fixpoint insert_desc (r : Borrow.t) (l : list Borrow.t) : list Borrow.t :=
  match l with
  | [] => [r]
  | x :: l' =>
      if Borrow.borrowedAt x <=? Borrow.borrowedAt r then r :: l
      else x :: insert_desc r l'
  end.

Definition sort_desc (l : list Borrow.t) : list Borrow.t :=
  fold_right insert_desc [] l.

Fixpoint mapM {A B} (f : A -> Async B) (l : list A) : Async (list B) :=
  match l with
  | [] => ret []
  | a :: l' => b <- f a ;; bs <- mapM f l' ;; ret (b :: bs)
  end.

Definition day_ms : Z := 1000 * 60 * 60 * 24.

(** Lines 186-191 of the source: the late fee of a return at [currentDate].
    The difference, the quotient and the product are taken exactly; they
    are those of the doubles of the source for time values less than 2^53
    milliseconds apart. *)
Definition late_fine (dueDate : option Date) (currentDate : Date) : Z :=
  match dueDate with
  | Some due =>
      if due <? currentDate
      then ceil_div (currentDate - due) day_ms * 5
      else 0
  | None => 0
  end.

Definition fine_message (fine : Z) : string :=
  if 0 <? fine
  then (rupee ++ Z_to_string fine ++ " has been applied for late return")%string
  else "No fine applied"%string.

(** ** The handlers *)

Section Controller.

(** [mongoose.Types.ObjectId.isValid], the cast [findById] applies to its
    argument, and the case-insensitive [$regex] match of the store
    (pattern first), all three provided by the driver. *)
Variable isValid : string -> bool.
Variable castObjectId : string -> option ObjectId.
Variable regex_i : string -> string -> bool.

Definition Book_findById (id : string) : Async (option Book.t) :=
  fun s =>
    match castObjectId id with
    | None => Threw (CastError id) s
    | Some oid => Resolved (lookup_book oid (books s)) s
    end.

Definition Book_matches (q : BookFilter) (b : Book.t) : bool :=
  match f_or_regex q with
  | Some search =>
      regex_i search (Book.title b) || regex_i search (Book.author b)
      || regex_i search (Book.category b)
  | None => true
  end
  && exact (f_category q) (Book.category b)
  && exact (f_author q) (Book.author b)
  && exact (f_status q) (BookStatus_to_string (Book.status b)).

(** [.limit(n)]: 0 is no limit, a negative value counts as its absolute
    value. *)
Definition apply_limit {A} (n : Z) (l : list A) : list A :=
  if n =? 0 then l else firstn (Z.to_nat (Z.abs n)) l.

(** [Book.find(query).skip(skip).limit(limit)]; the store refuses a
    negative skip. *)
Definition Book_find (q : BookFilter) (skip limit : Z) : Async (list Book.t) :=
  fun s =>
    if skip <? 0 then Threw (BadSkip skip) s
    else Resolved (apply_limit limit
                     (skipn (Z.to_nat skip) (filter (Book_matches q) (books s)))) s.

Definition Book_countDocuments (q : BookFilter) : Async Z :=
  fun s => Resolved (Z.of_nat (List.length (filter (Book_matches q) (books s)))) s.

(** [Borrow.find({user}).populate('book', ...).sort({borrowedAt: -1})]: a
    reference that no longer resolves is populated with null. *)
Definition Borrow_find_populated (user : ObjectId)
  : Async (list (Borrow.t * option Book.t)) :=
  fun s =>
    Resolved
      (map (fun r => (r, lookup_book (Borrow.book r) (books s)))
           (sort_desc (filter (fun r => N.eqb (Borrow.user r) user) (borrows s))))
      s.

(** POST /api/books.  The [catch] branch also unlinks the uploaded file;
    that touches the file system only and leaves both collections alone. *)
Definition addBook (body : Body.t) (file : option string) : Handler :=
  let title := Body.title body in
  let author := Body.author body in
  let category := Body.category body in
  let isbn := Body.isbn body in
  let description := Body.description body in
  let availableCopies := Body.availableCopies body in
  let totalCopies := Body.totalCopies body in
  if negb (field_truthy title) || negb (field_truthy author)
     || negb (field_truthy category) || negb (field_truthy isbn)
     || negb (field_truthy totalCopies)
  then fun s =>
    (mkResponse 400
       (Message "All fields except image and description are required"), s)
  else try_catch_500 (
    newBook <- Book_new title author category isbn
                 (js_or_doc description EmptyString)
                 (js_or availableCopies totalCopies)
                 totalCopies
                 (option_map (fun filename => ("/uploads/" ++ filename)%string) file) ;;
    savedBook <- Book_insert newBook ;;
    respond 201 (BookDoc savedBook)).

(** GET /api/books/:id *)
Definition getBookById (id : string) : Handler :=
  if negb (isValid id)
  then fun s => (mkResponse 400 (Message "Invalid Book ID"), s)
  else try_catch_500 (
    book <- Book_findById id ;;
    match book with
    | None => respond 404 (Message "Book not found")
    | Some book => respond 200 (BookDoc book)
    end).

(** PUT /api/books/:id *)
Definition updateBook (id : string) (body : Body.t) (file : option string)
  : Handler :=
  try_catch_500 (
    book <- Book_findById id ;;
    match book with
    | None => respond 404 (Message "Book not found")
    | Some book =>
        let book' :=
          Book.mk (Book._id book)
            (js_or_doc (Body.title body) (Book.title book))
            (js_or_doc (Body.author body) (Book.author book))
            (js_or_doc (Body.category body) (Book.category book))
            (js_or_doc (Body.isbn body) (Book.isbn book))
            (defined_or (Body.description body) (Book.description book))
            (match file with
             | Some filename => Some ("/uploads/" ++ filename)%string
             | None => Book.bookImage book
             end)
            (nullish (Body.availableCopies body) (Book.availableCopies book))
            (nullish (Body.totalCopies body) (Book.totalCopies book))
            (Book.status book) (Book.borrower book)
            (Book.borrowedAt book) (Book.dueDate book) in
        updatedBook <- Book_save book book' ;;
        respond 200 (BookDoc updatedBook)
    end).

(** DELETE /api/books/:id *)
Definition deleteBook (id : string) : Handler :=
  try_catch_500 (
    book <- Book_findById id ;;
    match book with
    | None => respond 404 (Message "Book not found")
    | Some book =>
        Book_deleteOne book ;;;
        respond 200 (Message "Book deleted successfully")
    end).

(** POST /api/books/:id/borrow.  [now] is the clock read by [new Date()]
    and [now'] the one read by [Date.now()] on the next line.  The
    decrement of [availableCopies] is the exact predecessor, which is the
    double subtraction of the source on safe integers. *)
Definition borrowBook (id : string) (user : ObjectId) (now now' : Date)
  : Handler :=
  try_catch_500 (
    book <- Book_findById id ;;
    match book with
    | None => respond 404 (Message "Book not found")
    | Some book =>
        if BookStatus_eqb (Book.status book) Borrowed
           || (Book.availableCopies book =? 0)
        then respond 400 (Message "Book is currently unavailable")
        else if is_borrower book user
        then respond 400 (Message "You have already borrowed this book")
        else
          let book' :=
            Book.mk (Book._id book) (Book.title book) (Book.author book)
              (Book.category book) (Book.isbn book) (Book.description book)
              (Book.bookImage book)
              (Book.availableCopies book - 1) (Book.totalCopies book)
              Borrowed (Some user) (Some now)
              (Some (now' + 7 * 24 * 60 * 60 * 1000)) in
          borrowRecord <- Borrow_new user (Book._id book') now
                            (now' + 7 * 24 * 60 * 60 * 1000) ;;
          Book_save book book' ;;;
          Borrow_insert borrowRecord ;;;
          respond 200
            (BorrowedOk "Book borrowed successfully" (Book.title book') now
               (now' + 7 * 24 * 60 * 60 * 1000))
    end).

(** POST /api/books/:id/return, at clock [currentDate].  The increment of
    [availableCopies] is the exact successor, which is the double addition
    of the source on safe integers. *)
Definition returnBook (id : string) (user : ObjectId) (currentDate : Date)
  : Handler :=
  try_catch_500 (
    book <- Book_findById id ;;
    match book with
    | None => respond 404 (Message "Book not found")
    | Some book =>
        if negb (is_borrower book user)
        then respond 400 (Message "You did not borrow this book")
        else
          let fine := late_fine (Book.dueDate book) currentDate in
          borrowRecord <- Borrow_findOne (Book._id book) user ;;
          match borrowRecord with
          | Some r =>
              Borrow_save
                (Borrow.mk (Borrow._id r) (Borrow.user r) (Borrow.book r)
                   (Borrow.borrowedAt r) (Borrow.dueDate r)
                   (Some currentDate) fine) ;;; ret tt
          | None => ret tt
          end ;;;
          let book' :=
            Book.mk (Book._id book) (Book.title book) (Book.author book)
              (Book.category book) (Book.isbn book) (Book.description book)
              (Book.bookImage book)
              (Book.availableCopies book + 1) (Book.totalCopies book)
              Available None None None in
          Book_save book book' ;;;
          respond 200
            (ReturnedOk "Book returned successfully" (fine_message fine))
    end).

(** GET /api/books *)
Definition getBooks (q : Query.t) : Handler :=
  try_catch_500 (
    let page := default (Query.page q) 1 in
    let limit := default (Query.limit q) 10 in
    let query :=
      mkBookFilter (option_truthy (Query.search q))
        (option_truthy (Query.category q))
        (option_truthy (Query.author q))
        (option_truthy (Query.status q)) in
    let skip := (page - 1) * limit in
    books <- Book_find query skip limit ;;
    totalBooks <- Book_countDocuments query ;;
    respond 200
      (BookPage totalBooks page (Math_ceil_div totalBooks limit) books)).

(** The callback of [borrowRecords.map]: reading [record.book._id] of a
    null [record.book] raises a TypeError. *)
Definition history_entry (record : Borrow.t * option Book.t)
  : Async HistoryEntry :=
  match record with
  | (r, Some b) =>
      ret (mkHistoryEntry (Borrow._id r) (Book._id b, Book.title b)
             (Book.title b) (Book.author b) (Book.category b)
             (match Borrow.returnedAt r with
              | Some _ => "Returned"%string
              | None => "Borrowed"%string
              end)
             (Borrow.borrowedAt r) (Borrow.dueDate r) (Borrow.returnedAt r)
             (js_or_doc (Given (Borrow.fine r)) 0))
  | (r, None) => throw (TypeError "_id")
  end.

(** GET /api/books/user/history.  The result of [find] is an array, which
    is truthy, so the [!borrowRecords] branch is never taken. *)
Definition getUserHistory (user : ObjectId) : Handler :=
  try_catch_500 (
    borrowRecords <- Borrow_find_populated user ;;
    history <- mapM history_entry borrowRecords ;;
    respond 200 (History history)).

(** ** Sequences of requests *)

Inductive Op : Type :=
| OpAdd (body : Body.t) (file : option string)
| OpBorrow (id : string) (user : ObjectId) (now now' : Date)
| OpReturn (id : string) (user : ObjectId) (currentDate : Date).

Definition step (op : Op) : Handler :=
  match op with
  | OpAdd body file => addBook body file
  | OpBorrow id user now now' => borrowBook id user now now'
  | OpReturn id user currentDate => returnBook id user currentDate
  end.

Definition run (ops : list Op) (s : Store) : Store :=
  fold_left (fun s op => snd (step op s)) ops s.

End Controller.

Definition empty_store : Store := mkStore [] [] 0%N.

(** The copy counts of an Add body lie in the ranges of the data model:
    [totalCopies] is not negative and [availableCopies], when given, lies
    between 0 and [totalCopies]. *)
Definition copies_in_range (body : Body.t) : bool :=
  match Body.totalCopies body with
  | Given t =>
      (0 <=? t)
      && match Body.availableCopies body with
         | Given a => (0 <=? a) && (a <=? t)
         | _ => true
         end
  | _ => true
  end.

Definition op_in_range (op : Op) : bool :=
  match op with
  | OpAdd body _ => copies_in_range body
  | _ => true
  end.

(** The inventory invariant of the data model, with the link to the
    single-borrower slot that makes it inductive. *)
Definition copies_ok (b : Book.t) : Prop :=
  0 <= Book.availableCopies b <= Book.totalCopies b.

Definition book_inv (b : Book.t) : Prop :=
  copies_ok b /\
  (Book.borrower b <> None -> Book.availableCopies b < Book.totalCopies b).

(** A recorded borrower goes with the Borrowed mark. *)
Definition slot_inv (b : Book.t) : Prop :=
  Book.borrower b <> None -> Book.status b = Borrowed.

(** The three overwrite policies of Update, in the words of the
    specification. *)
Definition set_if_truthy (x : field string) (old new : string) : Prop :=
  (forall v, x = Given v -> v <> EmptyString -> new = v) /\
  (x = Undefined \/ x = Null \/ x = Given EmptyString -> new = old).

Definition set_if_provided (x : field Z) (old new : Z) : Prop :=
  (forall v, x = Given v -> new = v) /\
  (x = Undefined \/ x = Null -> new = old).

Definition set_if_defined (x : field string) (old new : option string) : Prop :=
  (forall v, x = Given v -> new = Some v) /\
  (x = Null -> new = None) /\
  (x = Undefined -> new = old).

(** ** A driver instance for the closed examples

    Identifiers in their 24-digit hexadecimal form. *)

Definition hex_digit (c : ascii) : option N :=
  let n := N_of_ascii c in
  if (48 <=? n)%N && (n <=? 57)%N then Some (n - 48)%N
  else if (97 <=? n)%N && (n <=? 102)%N then Some (n - 87)%N
  else if (65 <=? n)%N && (n <=? 70)%N then Some (n - 55)%N
  else None.

Fixpoint hex_value (s : string) (acc : N) : option N :=
  match s with
  | EmptyString => Some acc
  | String c s' =>
      match hex_digit c with
      | Some d => hex_value s' (16 * acc + d)%N
      | None => None
      end
  end.

Definition hex24 (s : string) : option ObjectId :=
  if Nat.eqb (String.length s) 24 then hex_value s 0%N else None.

Definition hex24_valid (s : string) : bool :=
  match hex24 s with
  | Some _ => true
  | None => false
  end.

Definition no_regex (pattern subject : string) : bool := false.

Definition id0 : string := "000000000000000000000000".

Definition alice : ObjectId := 161%N.

Definition bob : ObjectId := 178%N.

(** The Add body of the scenario of the specification. *)
Definition body_XYZ (availableCopies : field Z) (totalCopies : Z) : Body.t :=
  Body.mk (Given "X"%string) (Given "Y"%string) (Given "Z"%string)
    (Given "1"%string) Undefined availableCopies (Given totalCopies).

Definition no_change : Body.t :=
  Body.mk Undefined Undefined Undefined Undefined Undefined Undefined Undefined.

(** An Update body that carries nothing but a description. *)
Definition only_description (d : field string) : Body.t :=
  Body.mk Undefined Undefined Undefined Undefined d Undefined Undefined.

(** An Update body that carries nothing but availableCopies. *)
Definition only_availableCopies (a : field Z) : Body.t :=
  Body.mk Undefined Undefined Undefined Undefined Undefined a Undefined.

(** The store after the Add of the scenario (two copies, availableCopies
    omitted), and after Alice borrowed the book at clock 1000. *)
Definition store_added : Store :=
  snd (addBook (body_XYZ Undefined 2) None empty_store).

Definition store_borrowed : Store :=
  snd (borrowBook hex24 id0 alice 1000 1000 store_added).

Definition book_added : Book.t :=
  Book.mk 0%N "X" "Y" "Z" "1" (Some EmptyString) None 2 2 Available
    None None None.

Definition book_borrowed : Book.t :=
  Book.mk 0%N "X" "Y" "Z" "1" (Some EmptyString) None 1 2 Borrowed
    (Some alice) (Some 1000) (Some 604801000).


(** The store after an Add that describes the book. *)
Definition book_described : Book.t :=
  Book.mk 0%N "X" "Y" "Z" "1" (Some "old"%string) None 2 2 Available
    None None None.

Definition store_described : Store :=
  snd (addBook
         (Body.mk (Given "X"%string) (Given "Y"%string) (Given "Z"%string)
            (Given "1"%string) (Given "old"%string) Undefined (Given 2))
         None empty_store).

(** The second page of the unfiltered listing, with the default limit. *)
Definition second_page : Query.t := Query.mk None None None None (Some 2) None.

(** The second page of the unfiltered listing, asked with [limit=0]. *)
Definition second_page_limit_0 : Query.t :=
  Query.mk None None None None (Some 2) (Some 0).

(** ** Reporting handlers *)

From Stdlib Require Import Sorted Permutation.

Module User.
(** Modelled from the spec: the User schema ([models/User.js] is not part
    of the sources); the reports read [name] and [email]. *)
Record t : Type := mk {
  _id : ObjectId;
  name : string;
  email : string
}.
End User.

Definition lookup_user (oid : ObjectId) (l : list User.t) : option User.t :=
  find (fun u => N.eqb (User._id u) oid) l.

(** What [populate] leaves of a book under [select: 'title author'] and of a
    user under [select: 'name email']. *)
Record BookRef : Type := mkBookRef {
  ref_id : ObjectId;
  ref_title : string;
  ref_author : string
}.

Record UserRef : Type := mkUserRef {
  uref_id : ObjectId;
  uref_name : string;
  uref_email : string
}.

Definition book_ref (b : Book.t) : BookRef :=
  mkBookRef (Book._id b) (Book.title b) (Book.author b).

Definition user_ref (u : User.t) : UserRef :=
  mkUserRef (User._id u) (User.name u) (User.email u).

(** A Borrow document after the two [populate] calls of the recent
    borrowings; a reference that does not resolve is null. *)
Record PopulatedBorrow : Type := mkPopulatedBorrow {
  pb_record : Borrow.t;
  pb_book : option BookRef;
  pb_user : option UserRef
}.

Definition is_some {A} (x : option A) : bool :=
  match x with
  | Some _ => true
  | None => false
  end.

(** What the handlers write with [console.warn] and [console.error]. *)
Inductive LogEntry : Type :=
| Warn_invalid (invalid : list (ObjectId * bool * bool))
| Log_error (label : string) (e : Error).

Inductive ReportJson : Type :=
| RecentBorrowings (borrowings : list PopulatedBorrow)
| DashboardStats (totalBooks availableBooks borrowedBooks overdueBooks
                  totalUsers : Z)
| ReportMessage (message : string).

Record ReportResponse : Type := mkReport {
  rep_status : Z;
  rep_json : ReportJson
}.

(** A reporting handler: the response, the log lines and the store. *)
Definition Reporter : Type := Store -> ReportResponse * list LogEntry * Store.

(** [Borrow.find().populate(book).populate(user).sort({borrowedAt: -1}).limit(n)]
    against the users collection [users]; the [match] of both populate calls,
    [{_id: {$exists: true}}], holds of every stored document. *)
Definition Borrow_find_recent (users : list User.t) (n : nat)
  : Async (list PopulatedBorrow) :=
  fun s =>
    Resolved
      (map (fun r =>
              mkPopulatedBorrow r
                (option_map book_ref (lookup_book (Borrow.book r) (books s)))
                (option_map user_ref (lookup_user (Borrow.user r) users)))
           (firstn n (sort_desc (borrows s))))
      s.

(** GET /api/books/borrowings/recent *)
Definition getRecentBorrowings (users : list User.t) : Reporter :=
  fun s =>
    match Borrow_find_recent users 10 s with
    | Resolved borrowings s' =>
        let validBorrowings :=
          filter (fun borrowing =>
                    is_some (pb_book borrowing) && is_some (pb_user borrowing))
                 borrowings in
        let invalidBorrowings :=
          filter (fun borrowing =>
                    negb (is_some (pb_book borrowing))
                    || negb (is_some (pb_user borrowing)))
                 borrowings in
        (mkReport 200 (RecentBorrowings validBorrowings),
         if (0 <? List.length invalidBorrowings)%nat
         then [Warn_invalid
                 (map (fun b => (Borrow._id (pb_record b),
                                 negb (is_some (pb_book b)),
                                 negb (is_some (pb_user b))))
                      invalidBorrowings)]
         else [],
         s')
    | Threw e s' =>
        (mkReport 500 (ReportMessage "Error fetching recent borrowings"),
         [Log_error "Error in getRecentBorrowings:" e], s')
    end.

(** [Model.countDocuments(filter)] on the two collections of the store. *)
Definition Book_count (p : Book.t -> bool) : Async Z :=
  fun s => Resolved (Z.of_nat (List.length (filter p (books s)))) s.

Definition Borrow_count (p : Borrow.t -> bool) : Async Z :=
  fun s => Resolved (Z.of_nat (List.length (filter p (borrows s)))) s.

(** The filter [{returnedAt: null}]. *)
Definition is_open (r : Borrow.t) : bool :=
  negb (is_some (Borrow.returnedAt r)).

(** The filter [{returnedAt: null, dueDate: {$lt: currentDate}}]. *)
Definition is_overdue (currentDate : Date) (r : Borrow.t) : bool :=
  is_open r && (Borrow.dueDate r <? currentDate).

(** GET /api/books/stats/dashboard, at clock [currentDate]. *)
Definition getDashboardStats (users : list User.t) (currentDate : Date)
  : Reporter :=
  fun s =>
    match
      (totalBooks <- Book_count (fun _ => true) ;;
       availableBooks <- Book_count (fun b => 0 <? Book.availableCopies b) ;;
       borrowedBooks <- Borrow_count is_open ;;
       overdueBooks <- Borrow_count (is_overdue currentDate) ;;
       let totalUsers := Z.of_nat (List.length users) in
       ret (DashboardStats totalBooks availableBooks borrowedBooks
              overdueBooks totalUsers)) s
    with
    | Resolved stats s' => (mkReport 200 stats, [], s')
    | Threw e s' =>
        (mkReport 500 (ReportMessage "Error fetching dashboard statistics"),
         [Log_error "Error in getDashboardStats:" e], s')
    end.

(** ** Predicates of the further properties *)

(** A request field that the required-field test of Add takes as missing. *)
Definition missing_text (x : field string) : Prop :=
  x = Undefined \/ x = Null \/ x = Given EmptyString.

Definition missing_number (x : field Z) : Prop :=
  x = Undefined \/ x = Null \/ x = Given 0.

(** Dates in newest-first order. *)
Definition newest_first (l : list Date) : Prop :=
  StronglySorted (fun a b => b <= a) l.

(** The books of a listing response. *)
Definition page_of (r : Response) : list Book.t :=
  match json r with
  | BookPage _ _ _ l => l
  | _ => []
  end.

(** The query [q] asked for page [p]. *)
Definition with_page (q : Query.t) (p : Z) : Query.t :=
  Query.mk (Query.search q) (Query.category q) (Query.author q)
    (Query.status q) (Some p) (Query.limit q).

(** The store after a run keeps identifiers apart, and its ledger and the
    borrower slots of its books tell the same story. *)
Definition ids_below (s : Store) : Prop :=
  (forall b, In b (books s) -> (Book._id b < nextId s)%N)
  /\ (forall r, In r (borrows s) -> (Borrow._id r < nextId s)%N).

Definition ids_unique (s : Store) : Prop :=
  NoDup (map Book._id (books s)) /\ NoDup (map Borrow._id (borrows s)).

Definition borrower_has_open_record (s : Store) : Prop :=
  forall b u, In b (books s) -> Book.borrower b = Some u ->
    exists r, In r (borrows s) /\ open_borrow_of (Book._id b) u r = true.

Definition open_record_has_borrower (s : Store) : Prop :=
  forall r, In r (borrows s) -> Borrow.returnedAt r = None ->
    exists b, In b (books s) /\ Book._id b = Borrow.book r
              /\ Book.borrower b = Some (Borrow.user r).

Definition one_open_record_per_book (s : Store) : Prop :=
  forall r1 r2, In r1 (borrows s) -> In r2 (borrows s) ->
    Borrow.returnedAt r1 = None -> Borrow.returnedAt r2 = None ->
    Borrow.book r1 = Borrow.book r2 -> r1 = r2.

Definition ledger_consistent (s : Store) : Prop :=
  ids_below s /\ ids_unique s /\ Forall slot_inv (books s)
  /\ borrower_has_open_record s /\ open_record_has_borrower s
  /\ one_open_record_per_book s.

(** Example data of the reports. *)
Definition users_alice : list User.t :=
  [User.mk alice "Alice" "alice@example.org"].

(** The history entry that [getUserHistory] builds for the record [r] in the
    store [s], as a relation. *)
Definition history_of (s : Store) (r : Borrow.t) (e : HistoryEntry) : Prop :=
  exists b,
    lookup_book (Borrow.book r) (books s) = Some b
    /\ h_id e = Borrow._id r
    /\ h_bookId e = (Book._id b, Book.title b)
    /\ h_title e = Book.title b
    /\ h_author e = Book.author b
    /\ h_category e = Book.category b
    /\ h_status e = (if is_open r then "Borrowed" else "Returned")%string
    /\ h_borrowedAt e = Borrow.borrowedAt r
    /\ h_dueDate e = Borrow.dueDate r
    /\ h_returnedAt e = Borrow.returnedAt r
    /\ h_fine e = Borrow.fine r.

(** Example data of the further properties: the requests of the scenario,
    the stores they lead to and the record they leave. *)
Definition ops_borrowed : list Op :=
  [OpAdd (body_XYZ Undefined 2) None; OpBorrow id0 alice 1000 1000].

Definition ops_returned : list Op :=
  ops_borrowed ++ [OpReturn id0 alice 691201000].

Definition open_record : Borrow.t :=
  Borrow.mk 1%N alice 0%N 1000 604801000 None 0.

Definition closed_record : Borrow.t :=
  Borrow.mk 1%N alice 0%N 1000 604801000 (Some 691201000) 5.

Definition store_deleted : Store :=
  snd (deleteBook hex24 id0 store_borrowed).

Definition query_category_Z : Query.t :=
  Query.mk None (Some "Z"%string) None None None None.

(** A well-formed identifier that the example stores do not hold. *)
Definition id5 : string := "000000000000000000000005".

(** * Properties *)

(** ** Lists of documents *)

Lemma lookup_book_id (oid : ObjectId) (l : list Book.t) (b : Book.t) :
  lookup_book oid l = Some b -> Book._id b = oid.
Proof.
  unfold lookup_book. intros H. apply find_some in H.
  destruct H as [_ H]. unfold has_id in H. now apply N.eqb_eq in H.
Qed.

Lemma lookup_book_In (oid : ObjectId) (l : list Book.t) (b : Book.t) :
  lookup_book oid l = Some b -> In b l.
Proof.
  unfold lookup_book. intros H. now apply find_some in H.
Qed.

Lemma lookup_replace_book (oid : ObjectId) (l : list Book.t) (b b' : Book.t) :
  lookup_book oid l = Some b -> Book._id b' = oid ->
  lookup_book oid (replace_book b' l) = Some b'.
Proof.
  unfold lookup_book, replace_book. intros H Hid. subst oid.
  induction l as [|x l IH]; simpl in *; [discriminate|].
  destruct (has_id (Book._id b') x) eqn:Hx.
  - simpl. unfold has_id at 1. now rewrite N.eqb_refl.
  - simpl. rewrite Hx. now apply IH.
Qed.

Lemma Forall_replace_book (P : Book.t -> Prop) (b : Book.t) (l : list Book.t) :
  Forall P l -> P b -> Forall P (replace_book b l).
Proof.
  intros Hl Hb. unfold replace_book. induction Hl as [|x l Hx Hl IH]; simpl.
  - constructor.
  - constructor; [now destruct (has_id (Book._id b) x)|exact IH].
Qed.

Lemma is_borrower_true (b : Book.t) (user : ObjectId) :
  Book.borrower b = Some user -> is_borrower b user = true.
Proof.
  unfold is_borrower. intros ->. apply N.eqb_refl.
Qed.

Lemma is_borrower_inv (b : Book.t) (user : ObjectId) :
  is_borrower b user = true -> Book.borrower b = Some user.
Proof.
  unfold is_borrower. destruct (Book.borrower b) as [o|]; [|discriminate].
  intros H. apply N.eqb_eq in H. now subst.
Qed.

Lemma ceil_div_bounds (a b : Z) :
  0 < b -> (ceil_div a b - 1) * b < a <= ceil_div a b * b.
Proof.
  intros Hb. unfold ceil_div.
  pose proof (Z.div_mod (- a) b ltac:(lia)) as Hdm.
  pose proof (Z.mod_pos_bound (- a) b Hb) as Hm.
  nia.
Qed.

Lemma ceil_div_unique (a b k : Z) :
  0 < b -> (k - 1) * b < a <= k * b -> ceil_div a b = k.
Proof.
  intros Hb Hk. pose proof (ceil_div_bounds a b Hb) as Hc. nia.
Qed.

Section Properties.

Variable isValid : string -> bool.
Variable castObjectId : string -> option ObjectId.
Variable regex_i : string -> string -> bool.

(** What each handler does once the identifier resolved to a stored
    document. *)
Lemma findById_resolved (id : string) (oid : ObjectId) (s : Store) :
  castObjectId id = Some oid ->
  Book_findById castObjectId id s = Resolved (lookup_book oid (books s)) s.
Proof.
  intros H. unfold Book_findById. now rewrite H.
Qed.

Lemma findById_threw (id : string) (s : Store) :
  castObjectId id = None ->
  Book_findById castObjectId id s = Threw (CastError id) s.
Proof.
  intros H. unfold Book_findById. now rewrite H.
Qed.

(** C10.  A malformed identifier is answered 400 "Invalid Book ID" by
    Get-by-id alone; Update, Delete, Borrow and Return hand it to the store
    and surface the cast failure as a 500 carrying the store's error,
    leaving the store untouched. *)
Theorem malformed_id_only_checked_by_get
    (id : string) (body : Body.t) (file : option string)
    (user : ObjectId) (now now' : Date) (s : Store) :
  isValid id = false ->
  castObjectId id = None ->
  getBookById isValid castObjectId id s
    = (mkResponse 400 (Message "Invalid Book ID"), s)
  /\ updateBook castObjectId id body file s
    = (mkResponse 500 (ErrorMessage (CastError id)), s)
  /\ deleteBook castObjectId id s
    = (mkResponse 500 (ErrorMessage (CastError id)), s)
  /\ borrowBook castObjectId id user now now' s
    = (mkResponse 500 (ErrorMessage (CastError id)), s)
  /\ returnBook castObjectId id user now s
    = (mkResponse 500 (ErrorMessage (CastError id)), s).
Proof.
  intros Hvalid Hcast.
  unfold getBookById, updateBook, deleteBook, borrowBook, returnBook.
  rewrite Hvalid. cbn.
  unfold try_catch_500, bind.
  rewrite (findById_threw id s Hcast).
  repeat split.
Qed.


(** What the code does with a Borrow by the recorded borrower, whatever
    the store: it answers 400 and changes neither collection, and the
    message is the one of the availability guard, which is evaluated first,
    whenever the book is marked Borrowed or has no copy left. *)
Lemma borrow_by_recorded_borrower_refused
    (id : string) (oid : ObjectId) (b : Book.t) (user : ObjectId)
    (now now' : Date) (s : Store) :
  castObjectId id = Some oid ->
  lookup_book oid (books s) = Some b ->
  Book.borrower b = Some user ->
  exists m,
    borrowBook castObjectId id user now now' s
      = (mkResponse 400 (Message m), s)
    /\ (Book.status b = Borrowed \/ Book.availableCopies b = 0 ->
        m = "Book is currently unavailable"%string)
    /\ (Book.status b = Available -> Book.availableCopies b <> 0 ->
        m = "You have already borrowed this book"%string).
Proof.
  intros Hcast Hb Hu.
  unfold borrowBook, try_catch_500, bind.
  rewrite (findById_resolved id oid s Hcast), Hb.
  destruct (Book.status b) eqn:Hst; cbn.
  - destruct (Z.eqb_spec (Book.availableCopies b) 0) as [Ha|Ha].
    + eexists. split; [reflexivity|]. split; [reflexivity|]. intros _ H. now elim H.
    + rewrite (is_borrower_true b user Hu). cbn.
      eexists. split; [reflexivity|]. split; [|reflexivity].
      intros [H|H]; [discriminate|contradiction].
  - eexists. split; [reflexivity|]. split; [reflexivity|]. discriminate.
Qed.

(** The effect of a Return by the recorded borrower, as one equation. *)
Lemma returnBook_by_borrower
    (id : string) (oid : ObjectId) (b : Book.t) (user : ObjectId)
    (currentDate : Date) (s : Store) :
  castObjectId id = Some oid ->
  lookup_book oid (books s) = Some b ->
  Book.borrower b = Some user ->
  returnBook castObjectId id user currentDate s
    = (mkResponse 200
         (ReturnedOk "Book returned successfully"
            (fine_message (late_fine (Book.dueDate b) currentDate))),
       mkStore
         (replace_book
            (Book.mk (Book._id b) (Book.title b) (Book.author b)
               (Book.category b) (Book.isbn b) (Book.description b)
               (Book.bookImage b) (Book.availableCopies b + 1)
               (Book.totalCopies b) Available None None None)
            (books s))
         (match find (open_borrow_of (Book._id b) user) (borrows s) with
          | Some r =>
              replace_borrow
                (Borrow.mk (Borrow._id r) (Borrow.user r) (Borrow.book r)
                   (Borrow.borrowedAt r) (Borrow.dueDate r) (Some currentDate)
                   (late_fine (Book.dueDate b) currentDate))
                (borrows s)
          | None => borrows s
          end)
         (nextId s)).
Proof.
  intros Hcast Hb Hu.
  unfold returnBook, try_catch_500, bind.
  rewrite (findById_resolved id oid s Hcast), Hb.
  rewrite (is_borrower_true b user Hu). cbn.
  unfold Borrow_findOne.
  destruct (find (open_borrow_of (Book._id b) user) (borrows s)) as [r|];
    cbn; unfold Book_save; cbn; rewrite String.eqb_refl; cbn;
    destruct s; reflexivity.
Qed.

(** A Borrow answers 200 exactly when the book exists, is neither marked
    Borrowed nor out of copies, and is not held by the requester; the
    equation gives the store it leaves. *)
Lemma borrowBook_success
    (id : string) (user : ObjectId) (now now' : Date)
    (s s1 : Store) (r1 : Response) :
  borrowBook castObjectId id user now now' s = (r1, s1) ->
  statusCode r1 = 200 ->
  exists oid b,
    castObjectId id = Some oid
    /\ lookup_book oid (books s) = Some b
    /\ Book.status b = Available
    /\ Book.availableCopies b <> 0
    /\ s1 = mkStore
         (replace_book
            (Book.mk (Book._id b) (Book.title b) (Book.author b)
               (Book.category b) (Book.isbn b) (Book.description b)
               (Book.bookImage b) (Book.availableCopies b - 1)
               (Book.totalCopies b) Borrowed (Some user) (Some now)
               (Some (now' + 7 * 24 * 60 * 60 * 1000)))
            (books s))
         (borrows s
          ++ [Borrow.mk (nextId s) user (Book._id b) now
                (now' + 7 * 24 * 60 * 60 * 1000) None 0])
         (N.succ (nextId s)).
Proof.
  unfold borrowBook, try_catch_500, bind, Book_findById.
  destruct (castObjectId id) as [oid|]; [|intros [= <- <-]; discriminate].
  destruct (lookup_book oid (books s)) as [b|] eqn:Hb;
    [|intros [= <- <-]; discriminate].
  destruct (Book.status b) eqn:Hst; cbn; [|intros [= <- <-]; discriminate].
  destruct (Z.eqb_spec (Book.availableCopies b) 0) as [Ha|Ha]; cbn;
    [intros [= <- <-]; discriminate|].
  destruct (is_borrower b user); cbn; [intros [= <- <-]; discriminate|].
  unfold Book_save. cbn. rewrite String.eqb_refl. cbn.
  intros [= <- <-] _. exists oid, b. repeat split; auto.
Qed.


Lemma In_replace_borrow (r r' : Borrow.t) (l : list Borrow.t) :
  In r l -> Borrow._id r' = Borrow._id r -> In r' (replace_borrow r' l).
Proof.
  intros Hin Hid. unfold replace_borrow.
  apply in_map_iff. exists r. split; [|exact Hin].
  rewrite Hid. now rewrite N.eqb_refl.
Qed.


(** C4.  A Return by the recorded borrower of a book due at [due], the due
    date and the clock being time values of the language less than 2^53
    milliseconds apart, is answered 200 with a fine that is 0 when the
    clock is at or before [due] and otherwise 5 times the least number of
    whole days covering the lateness (so 5 one second late and 50 ten days
    late); the body carries the formatted fine when it is positive and "No
    fine applied" when it is 0, and the open ledger record receives the
    same fine. *)
Theorem return_fine
    (id : string) (oid : ObjectId) (b : Book.t) (user : ObjectId)
    (due currentDate : Date) (s : Store) :
  castObjectId id = Some oid ->
  lookup_book oid (books s) = Some b ->
  Book.borrower b = Some user ->
  Book.dueDate b = Some due ->
  valid_time due ->
  valid_time currentDate ->
  safe_integer (currentDate - due) ->
  exists fine text,
    fst (returnBook castObjectId id user currentDate s)
      = mkResponse 200 (ReturnedOk "Book returned successfully" text)
    /\ (currentDate <= due -> fine = 0)
    /\ (due < currentDate ->
        exists daysLate,
          fine = daysLate * 5
          /\ (daysLate - 1) * 86400000 < currentDate - due <= daysLate * 86400000)
    /\ (currentDate = due + 1000 -> fine = 5)
    /\ (currentDate = due + 10 * 86400000 -> fine = 50)
    /\ (0 < fine ->
        text = (rupee ++ Z_to_string fine ++ " has been applied for late return")%string)
    /\ (fine = 0 -> text = "No fine applied"%string)
    /\ (forall r,
          find (open_borrow_of (Book._id b) user) (borrows s) = Some r ->
          In (Borrow.mk (Borrow._id r) (Borrow.user r) (Borrow.book r)
                (Borrow.borrowedAt r) (Borrow.dueDate r)
                (Some currentDate) fine)
             (borrows (snd (returnBook castObjectId id user currentDate s)))).
Proof.
  intros Hcast Hb Hu Hdue _ _ _.
  rewrite (returnBook_by_borrower id oid b user currentDate s Hcast Hb Hu).
  cbn [fst snd borrows]. rewrite Hdue.
  exists (late_fine (Some due) currentDate), (fine_message (late_fine (Some due) currentDate)).
  split; [reflexivity|].
  assert (Hday : day_ms = 86400000) by reflexivity.
  assert (Hlate : due < currentDate ->
                  late_fine (Some due) currentDate
                  = ceil_div (currentDate - due) 86400000 * 5).
  { intros H. unfold late_fine. rewrite Hday.
    destruct (Z.ltb_spec due currentDate); [reflexivity|lia]. }
  assert (Hearly : currentDate <= due -> late_fine (Some due) currentDate = 0).
  { intros H. unfold late_fine.
    destruct (Z.ltb_spec due currentDate); [lia|reflexivity]. }
  split; [exact Hearly|]. split.
  { intros H. exists (ceil_div (currentDate - due) 86400000).
    split; [exact (Hlate H)|]. apply ceil_div_bounds. lia. }
  split.
  { intros ->. rewrite Hlate by lia.
    rewrite (ceil_div_unique (due + 1000 - due) 86400000 1); lia. }
  split.
  { intros ->. rewrite Hlate by lia.
    rewrite (ceil_div_unique (due + 10 * 86400000 - due) 86400000 10); lia. }
  split.
  { intros H. unfold fine_message.
    destruct (Z.ltb_spec 0 (late_fine (Some due) currentDate)); [reflexivity|lia]. }
  split.
  { intros H. unfold fine_message. rewrite H. reflexivity. }
  intros r Hr. rewrite Hr.
  apply (In_replace_borrow r); [|reflexivity].
  now apply find_some in Hr.
Qed.

(** ** The inventory invariant *)

Lemma field_truthy_Given {A} `{ToBoolean A} (x : field A) :
  field_truthy x = true -> exists v, x = Given v /\ truthy v = true.
Proof.
  destruct x as [| |v]; cbn; try discriminate. intros Hv. now exists v.
Qed.

(** Add either refuses the body with 400, or builds the new document and
    inserts it unless its isbn is already held. *)
Lemma addBook_effect (body : Body.t) (file : option string) (s : Store) :
  addBook body file s
    = (mkResponse 400
         (Message "All fields except image and description are required"), s)
  \/ exists tl au ca isb t,
       Body.title body = Given tl /\ Body.author body = Given au
       /\ Body.category body = Given ca /\ Body.isbn body = Given isb
       /\ Body.totalCopies body = Given t /\ t <> 0
       /\ tl <> EmptyString /\ au <> EmptyString /\ ca <> EmptyString
       /\ isb <> EmptyString
       /\ let a := match Body.availableCopies body with
                   | Given a => if a =? 0 then t else a
                   | _ => t
                   end in
          let nb := Book.mk (nextId s) tl au ca isb
                      (Some (js_or_doc (Body.description body) EmptyString))
                      (option_map (fun f => ("/uploads/" ++ f)%string) file)
                      a t Available None None None in
          addBook body file s
            = if isbn_taken (nextId s) isb (books s)
              then (mkResponse 500 (ErrorMessage (DuplicateKey isb)),
                    mkStore (books s) (borrows s) (N.succ (nextId s)))
              else (mkResponse 201 (BookDoc nb),
                    mkStore (books s ++ [nb]) (borrows s) (N.succ (nextId s))).
Proof.
  unfold addBook. cbn zeta.
  match goal with
  | |- (if ?guard then _ else _) _ = _ \/ _ => destruct guard eqn:Hg
  end; [left; reflexivity|right].
  apply orb_false_elim in Hg as [Hg Gt].
  apply orb_false_elim in Hg as [Hg Gisb].
  apply orb_false_elim in Hg as [Hg Gca].
  apply orb_false_elim in Hg as [Gtl Gau].
  apply negb_false_iff in Gtl, Gau, Gca, Gisb, Gt.
  destruct (field_truthy_Given _ Gtl) as (tl & Htl & Ttl).
  destruct (field_truthy_Given _ Gau) as (au & Hau & Tau).
  destruct (field_truthy_Given _ Gca) as (ca & Hca & Tca).
  destruct (field_truthy_Given _ Gisb) as (isb & Hisb & Tisb).
  destruct (field_truthy_Given _ Gt) as (t & Ht & Tt).
  exists tl, au, ca, isb, t.
  assert (Hne : forall v : string, truthy v = true -> v <> EmptyString).
  { intros v Hv ->. discriminate Hv. }
  assert (Ht0 : t <> 0).
  { intros ->. discriminate Tt. }
  rewrite Htl, Hau, Hca, Hisb, Ht.
  repeat (split; [solve [reflexivity | auto]|]).
  cbn zeta.
  unfold try_catch_500, bind, Book_new, bind, new_ObjectId, js_or,
    Book_insert, field_truthy.
  unfold truthy, Z_ToBoolean in Tt |- *.
  destruct (Body.availableCopies body) as [| |a]; cbn; rewrite ?Tt; cbn;
    unfold isbn_taken;
    [ | | destruct (a =? 0); cbn; rewrite ?Tt; cbn ];
    destruct (existsb _ (books s)); reflexivity.
Qed.

Lemma borrowBook_store
    (id : string) (user : ObjectId) (now now' : Date) (s : Store) :
  snd (borrowBook castObjectId id user now now' s) = s
  \/ statusCode (fst (borrowBook castObjectId id user now now' s)) = 200.
Proof.
  unfold borrowBook, try_catch_500, bind, Book_findById.
  destruct (castObjectId id) as [oid|]; [|now left].
  destruct (lookup_book oid (books s)) as [b|]; [|now left].
  destruct (BookStatus_eqb (Book.status b) Borrowed
            || (Book.availableCopies b =? 0)); [now left|].
  destruct (is_borrower b user); [now left|].
  right. unfold Book_save. cbn. rewrite String.eqb_refl. reflexivity.
Qed.

Lemma returnBook_store
    (id : string) (user : ObjectId) (currentDate : Date) (s : Store) :
  snd (returnBook castObjectId id user currentDate s) = s
  \/ exists oid b,
       castObjectId id = Some oid
       /\ lookup_book oid (books s) = Some b
       /\ Book.borrower b = Some user.
Proof.
  unfold returnBook, try_catch_500, bind, Book_findById.
  destruct (castObjectId id) as [oid|] eqn:Hcast; [|now left].
  destruct (lookup_book oid (books s)) as [b|] eqn:Hb; [|now left].
  destruct (is_borrower b user) eqn:Hu; [|now left].
  right. exists oid, b. split; [reflexivity|]. split; [exact Hb|].
  now apply is_borrower_inv.
Qed.

Lemma addBook_preserves_inv (body : Body.t) (file : option string) (s : Store) :
  copies_in_range body = true ->
  Forall book_inv (books s) ->
  Forall book_inv (books (snd (addBook body file s))).
Proof.
  intros Hrange Hinv.
  destruct (addBook_effect body file s)
    as [->|(tl & au & ca & isb & t & _ & _ & _ & _ & Ht & Ht0 & _ & _ & _ & _ & Heq)];
    [exact Hinv|].
  cbn zeta in Heq. rewrite Heq.
  destruct (isbn_taken (nextId s) isb (books s)); [exact Hinv|].
  cbn [snd books]. apply Forall_app. split; [exact Hinv|].
  constructor; [|constructor].
  unfold copies_in_range in Hrange. rewrite Ht in Hrange.
  apply andb_prop in Hrange as [Hpos Ha].
  apply Z.leb_le in Hpos.
  unfold book_inv, copies_ok. cbn. split; [|intros H; now elim H].
  destruct (Body.availableCopies body) as [| |a]; try lia.
  apply andb_prop in Ha as [Ha1 Ha2].
  apply Z.leb_le in Ha1, Ha2.
  destruct (a =? 0); lia.
Qed.

Lemma borrowBook_preserves_inv
    (id : string) (user : ObjectId) (now now' : Date) (s : Store) :
  Forall book_inv (books s) ->
  Forall book_inv (books (snd (borrowBook castObjectId id user now now' s))).
Proof.
  intros Hinv.
  destruct (borrowBook_store id user now now' s) as [->|Hok]; [exact Hinv|].
  destruct (borrowBook castObjectId id user now now' s) as [r1 s1] eqn:Hrun.
  destruct (borrowBook_success id user now now' s s1 r1 Hrun Hok)
    as (oid & b & _ & Hb & _ & Ha & ->).
  cbn [snd books]. apply Forall_replace_book; [exact Hinv|].
  apply lookup_book_In in Hb.
  rewrite Forall_forall in Hinv. destruct (Hinv b Hb) as [Hc _].
  unfold book_inv, copies_ok in *. cbn. split; [lia|intros _; lia].
Qed.

Lemma returnBook_preserves_inv
    (id : string) (user : ObjectId) (currentDate : Date) (s : Store) :
  Forall book_inv (books s) ->
  Forall book_inv (books (snd (returnBook castObjectId id user currentDate s))).
Proof.
  intros Hinv.
  destruct (returnBook_store id user currentDate s)
    as [->|(oid & b & Hcast & Hb & Hu)]; [exact Hinv|].
  rewrite (returnBook_by_borrower id oid b user currentDate s Hcast Hb Hu).
  cbn [snd books]. apply Forall_replace_book; [exact Hinv|].
  apply lookup_book_In in Hb.
  rewrite Forall_forall in Hinv. destruct (Hinv b Hb) as [Hc Hlt].
  assert (Hsome : Book.borrower b <> None) by (rewrite Hu; discriminate).
  specialize (Hlt Hsome).
  unfold book_inv, copies_ok in *. cbn. split; [lia|intros H; now elim H].
Qed.

Lemma run_preserves_inv (ops : list Op) (s : Store) :
  forallb op_in_range ops = true ->
  Forall book_inv (books s) ->
  Forall book_inv (books (run castObjectId ops s)).
Proof.
  revert s. induction ops as [|op ops IH]; intros s Hops Hinv; [exact Hinv|].
  cbn in Hops. apply andb_prop in Hops as [Hop Hops].
  unfold run. cbn [fold_left]. apply IH; [exact Hops|].
  destruct op as [body file|id user now now'|id user currentDate]; cbn [step].
  - now apply addBook_preserves_inv.
  - now apply borrowBook_preserves_inv.
  - now apply returnBook_preserves_inv.
Qed.

(** C2, as amended.  In every store reached from the empty one by Add,
    Borrow and Return requests, where each Add body has a totalCopies that
    is not negative and an availableCopies that is omitted or lies between
    0 and totalCopies, every book satisfies
    0 <= availableCopies <= totalCopies. *)
Theorem copies_within_bounds_after_add_borrow_return
    (ops : list Op) (b : Book.t) :
  forallb op_in_range ops = true ->
  In b (books (run castObjectId ops empty_store)) ->
  0 <= Book.availableCopies b <= Book.totalCopies b.
Proof.
  intros Hops Hin.
  pose proof (run_preserves_inv ops empty_store Hops (Forall_nil _)) as Hinv.
  rewrite Forall_forall in Hinv. now destruct (Hinv b Hin) as [Hc _].
Qed.

(** ** Update *)

Lemma js_or_doc_set_if_truthy (x : field string) (old : string) :
  set_if_truthy x old (js_or_doc x old).
Proof.
  split.
  - intros v -> Hv. cbn. unfold truthy, string_ToBoolean.
    destruct (String.eqb_spec v EmptyString); [contradiction|reflexivity].
  - intros [->|[->| ->]]; reflexivity.
Qed.

Lemma nullish_set_if_provided (x : field Z) (old : Z) :
  set_if_provided x old (nullish x old).
Proof.
  split.
  - now intros v ->.
  - intros [->| ->]; reflexivity.
Qed.

Lemma defined_or_set_if_defined (x : field string) (old : option string) :
  set_if_defined x old (defined_or x old).
Proof.
  repeat split; now intros; subst.
Qed.

(** C6, as amended.  An Update of a stored book, whose new isbn (if any)
    is not held by another book, is answered 200 and stores a record in
    which availableCopies and totalCopies are overwritten whenever given,
    0 included; title, author, category and isbn are overwritten only by a
    non-empty string; description is overwritten whenever the body
    defines it, by the empty string as well (and cleared by null); every
    absent field, and the borrow state, is left as it was. *)
Theorem update_overwrite_policy
    (id : string) (oid : ObjectId) (b : Book.t) (body : Body.t)
    (file : option string) (s : Store) :
  castObjectId id = Some oid ->
  lookup_book oid (books s) = Some b ->
  (forall v, Body.isbn body = Given v -> v <> Book.isbn b ->
             isbn_taken oid v (books s) = false) ->
  exists b',
    fst (updateBook castObjectId id body file s) = mkResponse 200 (BookDoc b')
    /\ lookup_book oid (books (snd (updateBook castObjectId id body file s)))
       = Some b'
    /\ set_if_provided (Body.availableCopies body)
         (Book.availableCopies b) (Book.availableCopies b')
    /\ set_if_provided (Body.totalCopies body)
         (Book.totalCopies b) (Book.totalCopies b')
    /\ set_if_truthy (Body.title body) (Book.title b) (Book.title b')
    /\ set_if_truthy (Body.author body) (Book.author b) (Book.author b')
    /\ set_if_truthy (Body.category body) (Book.category b) (Book.category b')
    /\ set_if_truthy (Body.isbn body) (Book.isbn b) (Book.isbn b')
    /\ set_if_defined (Body.description body)
         (Book.description b) (Book.description b')
    /\ (file = None -> Book.bookImage b' = Book.bookImage b)
    /\ Book.status b' = Book.status b
    /\ Book.borrower b' = Book.borrower b
    /\ Book.borrowedAt b' = Book.borrowedAt b
    /\ Book.dueDate b' = Book.dueDate b.
Proof.
  intros Hcast Hb Hisbn.
  pose proof (lookup_book_id oid (books s) b Hb) as Hid.
  unfold updateBook, try_catch_500, bind.
  rewrite (findById_resolved id oid s Hcast), Hb.
  unfold Book_save. cbn [Book.isbn Book._id].
  assert (Hfree :
    negb (Book.isbn b =? js_or_doc (Body.isbn body) (Book.isbn b))%string
    && isbn_taken (Book._id b) (js_or_doc (Body.isbn body) (Book.isbn b)) (books s)
    = false).
  { destruct (String.eqb_spec (Book.isbn b)
                (js_or_doc (Body.isbn body) (Book.isbn b))) as [He|He];
      [reflexivity|].
    cbn. rewrite Hid.
    destruct (Body.isbn body) as [| |v] eqn:Hv; cbn in He |- *;
      try now elim He.
    destruct (truthy v); [|now elim He].
    apply (Hisbn v eq_refl). congruence. }
  rewrite Hfree. cbn [fst snd respond ret books set_books].
  eexists. split; [reflexivity|]. split.
  { apply (lookup_replace_book oid (books s) b _ Hb). exact Hid. }
  cbn.
  split; [apply nullish_set_if_provided|].
  split; [apply nullish_set_if_provided|].
  split; [apply js_or_doc_set_if_truthy|].
  split; [apply js_or_doc_set_if_truthy|].
  split; [apply js_or_doc_set_if_truthy|].
  split; [apply js_or_doc_set_if_truthy|].
  split; [apply defined_or_set_if_defined|].
  split; [now intros ->|].
  repeat split.
Qed.

(** ** Listing *)

(** C8, as amended.  For a page and a limit of at least 1 (1 and 10 when
    absent), the listing is answered 200 with the number of all matching
    books, the requested page number, the least number of pages of [limit]
    books that hold them all, and the books of that page in store order; a
    page beyond the last is empty and carries the same totals. *)
Theorem getBooks_pagination (q : Query.t) (s : Store) :
  let page := default (Query.page q) 1 in
  let limit := default (Query.limit q) 10 in
  let matching :=
    filter (Book_matches regex_i
              (mkBookFilter (option_truthy (Query.search q))
                 (option_truthy (Query.category q))
                 (option_truthy (Query.author q))
                 (option_truthy (Query.status q))))
           (books s) in
  let totalBooks := Z.of_nat (List.length matching) in
  1 <= page ->
  1 <= limit ->
  exists totalPages slice,
    getBooks regex_i q s
      = (mkResponse 200 (BookPage totalBooks page (Finite totalPages) slice), s)
    /\ (totalPages - 1) * limit < totalBooks <= totalPages * limit
    /\ slice = firstn (Z.to_nat limit)
                 (skipn (Z.to_nat ((page - 1) * limit)) matching)
    /\ (totalPages < page -> slice = []).
Proof.
  intros page limit matching totalBooks Hpage Hlimit.
  exists (ceil_div totalBooks limit),
         (firstn (Z.to_nat limit)
            (skipn (Z.to_nat ((page - 1) * limit)) matching)).
  pose proof (ceil_div_bounds totalBooks limit ltac:(lia)) as Hceil.
  split.
  - unfold getBooks, try_catch_500, bind, Book_find, Book_countDocuments.
    fold page limit. cbn zeta.
    destruct (Z.ltb_spec ((page - 1) * limit) 0) as [Hneg|_]; [nia|].
    unfold respond, ret, Math_ceil_div, apply_limit.
    destruct (Z.eqb_spec limit 0) as [H0|_]; [lia|].
    rewrite Z.abs_eq by lia. reflexivity.
  - split; [exact Hceil|]. split; [reflexivity|].
    intros Hbeyond. rewrite skipn_all2; [apply firstn_nil|].
    apply Nat2Z.inj_le. fold totalBooks. rewrite Z2Nat.id by nia. nia.
Qed.

(** ** History *)

Lemma In_insert_desc (r x : Borrow.t) (l : list Borrow.t) :
  In x (insert_desc r l) <-> x = r \/ In x l.
Proof.
  induction l as [|y l IH]; cbn.
  - intuition congruence.
  - destruct (Borrow.borrowedAt y <=? Borrow.borrowedAt r); cbn.
    + intuition congruence.
    + rewrite IH. intuition congruence.
Qed.

Lemma In_sort_desc (x : Borrow.t) (l : list Borrow.t) :
  In x (sort_desc l) <-> In x l.
Proof.
  unfold sort_desc. induction l as [|y l IH]; cbn; [reflexivity|].
  rewrite In_insert_desc, IH. intuition congruence.
Qed.

Lemma mapM_history_missing
    (records : list (Borrow.t * option Book.t)) (r : Borrow.t) (s : Store) :
  In (r, None) records ->
  mapM history_entry records s = Threw (TypeError "_id") s.
Proof.
  induction records as [|[x [b|]] records IH]; cbn; [contradiction| |].
  - intros [Heq|Hin]; [discriminate|].
    unfold bind, ret. cbn. rewrite (IH Hin). reflexivity.
  - intros _. reflexivity.
Qed.

(** The history of a user who holds a record whose book no longer
    resolves is answered 500, whatever the other records are. *)
Lemma getUserHistory_missing_book (user : ObjectId) (r : Borrow.t) (s : Store) :
  In r (borrows s) ->
  Borrow.user r = user ->
  lookup_book (Borrow.book r) (books s) = None ->
  getUserHistory user s
    = (mkResponse 500 (ErrorMessage (TypeError "_id")), s).
Proof.
  intros Hin Huser Hgone.
  unfold getUserHistory, try_catch_500, bind, Borrow_find_populated.
  rewrite (mapM_history_missing _ r).
  - reflexivity.
  - apply in_map_iff. exists r. rewrite Hgone. split; [reflexivity|].
    apply In_sort_desc. apply filter_In. split; [exact Hin|].
    rewrite Huser. apply N.eqb_refl.
Qed.

(** ** The single-borrower slot *)

Lemma run_preserves_slot (ops : list Op) (s : Store) :
  Forall slot_inv (books s) ->
  Forall slot_inv (books (run castObjectId ops s)).
Proof.
  revert s. induction ops as [|op ops IH]; intros s Hinv; [exact Hinv|].
  unfold run. cbn [fold_left]. apply IH.
  destruct op as [body file|id user now now'|id user currentDate]; cbn [step].
  - destruct (addBook_effect body file s)
      as [->|(tl & au & ca & isb & t & _ & _ & _ & _ & _ & _ & _ & _ & _ & _ & Heq)];
      [exact Hinv|].
    cbn zeta in Heq. rewrite Heq.
    destruct (isbn_taken (nextId s) isb (books s)); [exact Hinv|].
    cbn [snd books]. apply Forall_app. split; [exact Hinv|].
    constructor; [|constructor]. intros H. now elim H.
  - destruct (borrowBook_store id user now now' s) as [->|Hok]; [exact Hinv|].
    destruct (borrowBook castObjectId id user now now' s) as [r1 s1] eqn:Hrun.
    destruct (borrowBook_success id user now now' s s1 r1 Hrun Hok)
      as (oid & b & _ & _ & _ & _ & ->).
    cbn [snd books]. apply Forall_replace_book; [exact Hinv|].
    intros _. reflexivity.
  - destruct (returnBook_store id user currentDate s)
      as [->|(oid & b & Hcast & Hb & Hu)]; [exact Hinv|].
    rewrite (returnBook_by_borrower id oid b user currentDate s Hcast Hb Hu).
    cbn [snd books]. apply Forall_replace_book; [exact Hinv|].
    intros H. now elim H.
Qed.

(** In a store built by Add, Borrow and Return requests a book with a
    recorded borrower is marked Borrowed, so a second Borrow by that
    borrower always stops at the availability guard. *)
Lemma recorded_borrower_marked_borrowed (ops : list Op) (b : Book.t) :
  In b (books (run castObjectId ops empty_store)) ->
  Book.borrower b <> None ->
  Book.status b = Borrowed.
Proof.
  intros Hin.
  pose proof (run_preserves_slot ops empty_store (Forall_nil _)) as Hinv.
  rewrite Forall_forall in Hinv. exact (Hinv b Hin).
Qed.

(** ** Add *)

(** An Add answered 201 appended one document whose availableCopies is
    the value of the body when that is a non-zero number, and totalCopies
    when it is absent, null or 0. *)
Lemma addBook_availableCopies (body : Body.t) (file : option string) (s : Store) :
  statusCode (fst (addBook body file s)) = 201 ->
  exists nb t,
    Body.totalCopies body = Given t
    /\ fst (addBook body file s) = mkResponse 201 (BookDoc nb)
    /\ books (snd (addBook body file s)) = books s ++ [nb]
    /\ Book.totalCopies nb = t
    /\ (Body.availableCopies body = Undefined \/ Body.availableCopies body = Null ->
        Book.availableCopies nb = t)
    /\ (forall a, Body.availableCopies body = Given a -> a <> 0 ->
        Book.availableCopies nb = a)
    /\ (Body.availableCopies body = Given 0 -> Book.availableCopies nb = t).
Proof.
  destruct (addBook_effect body file s)
    as [->|(tl & au & ca & isb & t & _ & _ & _ & _ & Ht & _ & _ & _ & _ & _ & Heq)];
    [discriminate|].
  cbn zeta in Heq. rewrite Heq.
  destruct (isbn_taken (nextId s) isb (books s)); [discriminate|].
  intros _. eexists _, t. split; [exact Ht|]. split; [reflexivity|].
  split; [reflexivity|]. cbn. split; [reflexivity|]. split.
  - intros [->| ->]; reflexivity.
  - split.
    + intros a -> Ha. destruct (Z.eqb_spec a 0); [contradiction|reflexivity].
    + intros ->. reflexivity.
Qed.

End Properties.

(** * Closed instances *)

(** The two example books are the ones the example stores hold. *)
Lemma store_added_book :
  store_added = mkStore [book_added] [] 1%N.
Proof. reflexivity. Qed.

Lemma store_borrowed_book :
  store_borrowed
  = mkStore [book_borrowed]
      [Borrow.mk 1%N alice 0%N 1000 604801000 None 0] 2%N.
Proof. reflexivity. Qed.

(** Instance of C10: the identifier "abc" under the hexadecimal driver. *)
Lemma malformed_id_only_checked_by_get_witness :
  hex24_valid "abc" = false
  /\ hex24 "abc" = None
  /\ getBookById hex24_valid hex24 "abc" empty_store
     = (mkResponse 400 (Message "Invalid Book ID"), empty_store)
  /\ updateBook hex24 "abc" no_change None empty_store
     = (mkResponse 500 (ErrorMessage (CastError "abc")), empty_store)
  /\ deleteBook hex24 "abc" empty_store
     = (mkResponse 500 (ErrorMessage (CastError "abc")), empty_store)
  /\ borrowBook hex24 "abc" alice 0 0 empty_store
     = (mkResponse 500 (ErrorMessage (CastError "abc")), empty_store)
  /\ returnBook hex24 "abc" alice 0 empty_store
     = (mkResponse 500 (ErrorMessage (CastError "abc")), empty_store).
Proof.
  split; [reflexivity|]. split; [reflexivity|].
  apply (malformed_id_only_checked_by_get hex24_valid hex24 "abc" no_change None
           alice 0 0 empty_store); reflexivity.
Defined.

(** C1 at the failing input: Alice, the recorded borrower of the book she
    just borrowed, asks to borrow it again; the store stays as it was, but
    she is told that the book is unavailable, not that she already borrowed
    it. *)
Lemma borrow_by_recorded_borrower_says_unavailable :
  lookup_book 0%N (books store_borrowed) = Some book_borrowed
  /\ Book.borrower book_borrowed = Some alice
  /\ borrowBook hex24 id0 alice 2000 2000 store_borrowed
     = (mkResponse 400 (Message "Book is currently unavailable"), store_borrowed)
  /\ fst (borrowBook hex24 id0 alice 2000 2000 store_borrowed)
     <> mkResponse 400 (Message "You have already borrowed this book").
Proof.
  repeat split. discriminate.
Qed.

(** The same request against the general lemma. *)
Lemma borrow_by_recorded_borrower_refused_witness :
  hex24 id0 = Some 0%N
  /\ lookup_book 0%N (books store_borrowed) = Some book_borrowed
  /\ Book.borrower book_borrowed = Some alice
  /\ exists m,
       borrowBook hex24 id0 alice 2000 2000 store_borrowed
         = (mkResponse 400 (Message m), store_borrowed)
       /\ (Book.status book_borrowed = Borrowed
           \/ Book.availableCopies book_borrowed = 0 ->
           m = "Book is currently unavailable"%string)
       /\ (Book.status book_borrowed = Available ->
           Book.availableCopies book_borrowed <> 0 ->
           m = "You have already borrowed this book"%string).
Proof.
  split; [reflexivity|]. split; [reflexivity|]. split; [reflexivity|].
  apply (borrow_by_recorded_borrower_refused hex24 id0 0%N book_borrowed alice
           2000 2000 store_borrowed); reflexivity.
Defined.

(** Counterexample to C2 as stated: an Add that supplies five available
    copies of a book with two copies in total is answered 201 and stores the
    record with availableCopies above totalCopies. *)
Lemma add_with_excess_copies_breaks_bounds :
  exists b,
    addBook (body_XYZ (Given 5) 2) None empty_store
      = (mkResponse 201 (BookDoc b), mkStore [b] [] 1%N)
    /\ Book.availableCopies b = 5
    /\ Book.totalCopies b = 2
    /\ ~ (0 <= Book.availableCopies b <= Book.totalCopies b).
Proof.
  eexists. split; [reflexivity|]. cbn. repeat split. lia.
Qed.

(** The bounds also give way, without any Add out of range, when an Update
    raises availableCopies while the book is out on loan and the book is
    then returned. *)
Lemma return_after_update_exceeds_total :
  let updated :=
    snd (updateBook hex24 id0 (only_availableCopies (Given 2)) None store_borrowed) in
  let returned := snd (returnBook hex24 id0 alice 5000 updated) in
  exists b,
    lookup_book 0%N (books returned) = Some b
    /\ Book.availableCopies b = 3
    /\ Book.totalCopies b = 2.
Proof.
  eexists. split; [reflexivity|]. split; reflexivity.
Qed.

(** Instance of the amended C2: the scenario Add, Borrow, Return. *)
Lemma copies_within_bounds_witness :
  forallb op_in_range
    [OpAdd (body_XYZ Undefined 2) None; OpBorrow id0 alice 1000 1000;
     OpReturn id0 alice 691201000] = true
  /\ In book_added
       (books (run hex24
                 [OpAdd (body_XYZ Undefined 2) None; OpBorrow id0 alice 1000 1000;
                  OpReturn id0 alice 691201000] empty_store))
  /\ 0 <= Book.availableCopies book_added <= Book.totalCopies book_added.
Proof.
  split; [reflexivity|]. split; [left; reflexivity|].
  apply (copies_within_bounds_after_add_borrow_return hex24
           [OpAdd (body_XYZ Undefined 2) None; OpBorrow id0 alice 1000 1000;
            OpReturn id0 alice 691201000] book_added).
  - reflexivity.
  - left; reflexivity.
Defined.

(** C3 at the failing input: an Add that supplies availableCopies 0 for a
    book with two copies is answered 201 and stores availableCopies 2, the
    value of totalCopies, not the supplied 0. *)
Theorem add_zero_availableCopies_stores_totalCopies :
  Body.availableCopies (body_XYZ (Given 0) 2) = Given 0
  /\ addBook (body_XYZ (Given 0) 2) None empty_store
     = (mkResponse 201 (BookDoc book_added), mkStore [book_added] [] 1%N)
  /\ Book.availableCopies book_added = 2.
Proof.
  repeat split.
Qed.

(** Instance of C4: Alice returns the book one second after it was due. *)
Lemma return_fine_witness :
  hex24 id0 = Some 0%N
  /\ lookup_book 0%N (books store_borrowed) = Some book_borrowed
  /\ Book.borrower book_borrowed = Some alice
  /\ Book.dueDate book_borrowed = Some 604801000
  /\ valid_time 604801000
  /\ valid_time (604801000 + 1000)
  /\ safe_integer (604801000 + 1000 - 604801000)
  /\ exists fine text,
       fst (returnBook hex24 id0 alice (604801000 + 1000) store_borrowed)
         = mkResponse 200 (ReturnedOk "Book returned successfully" text)
       /\ fine = 5
       /\ text = (rupee ++ "5 has been applied for late return")%string.
Proof.
  assert (Hdue : valid_time 604801000) by (unfold valid_time; lia).
  assert (Hclock : valid_time (604801000 + 1000)) by (unfold valid_time; lia).
  assert (Hlate : safe_integer (604801000 + 1000 - 604801000))
    by (unfold safe_integer; lia).
  split; [reflexivity|]. split; [reflexivity|]. split; [reflexivity|].
  split; [reflexivity|]. split; [exact Hdue|]. split; [exact Hclock|].
  split; [exact Hlate|].
  destruct (return_fine hex24 id0 0%N book_borrowed alice 604801000
              (604801000 + 1000) store_borrowed
              eq_refl eq_refl eq_refl eq_refl Hdue Hclock Hlate)
    as (fine & text & Hresp & _ & _ & Hsecond & _ & Hpos & _ & _).
  exists fine, text. split; [exact Hresp|].
  pose proof (Hsecond eq_refl) as Hfine. split; [exact Hfine|].
  rewrite Hpos by (rewrite Hfine; reflexivity).
  rewrite Hfine. reflexivity.
Defined.

(** C5 at the failing input: after the book Alice borrowed is deleted, her
    history, which was answered 200 before, is answered 500 with the
    TypeError raised on the null book of her record. *)
Theorem history_fails_once_book_deleted :
  let deleted := deleteBook hex24 id0 store_borrowed in
  statusCode (fst (getUserHistory alice store_borrowed)) = 200
  /\ fst deleted = mkResponse 200 (Message "Book deleted successfully")
  /\ borrows (snd deleted) = borrows store_borrowed
  /\ getUserHistory alice (snd deleted)
     = (mkResponse 500 (ErrorMessage (TypeError "_id")), snd deleted).
Proof.
  repeat split.
Qed.

(** Counterexample to C6 as stated: an Update whose description is the
    empty string overwrites the stored description. *)
Lemma update_empty_description_overwrites :
  let updated :=
    snd (updateBook hex24 id0 (only_description (Given EmptyString)) None
           store_described) in
  exists b',
    lookup_book 0%N (books store_described) = Some book_described
    /\ Book.description book_described = Some "old"%string
    /\ lookup_book 0%N (books updated) = Some b'
    /\ Book.description b' = Some EmptyString
    /\ Book.description b' <> Book.description book_described.
Proof.
  eexists. split; [reflexivity|]. split; [reflexivity|].
  split; [reflexivity|]. split; [reflexivity|]. discriminate.
Qed.

(** Instance of the amended C6 on the same request. *)
Lemma update_overwrite_policy_witness :
  hex24 id0 = Some 0%N
  /\ lookup_book 0%N (books store_described) = Some book_described
  /\ exists b',
       fst (updateBook hex24 id0 (only_description (Given EmptyString)) None
              store_described) = mkResponse 200 (BookDoc b')
       /\ Book.description b' = Some EmptyString
       /\ Book.title b' = "X"%string
       /\ Book.availableCopies b' = 2.
Proof.
  split; [reflexivity|]. split; [reflexivity|].
  destruct (update_overwrite_policy hex24 id0 0%N book_described
              (only_description (Given EmptyString)) None store_described
              eq_refl eq_refl
              ltac:(intros v H; discriminate H))
    as (b' & Hresp & _ & Havail & _ & Htitle & _ & _ & _ & Hdesc & _).
  exists b'. split; [exact Hresp|].
  split; [exact (proj1 Hdesc EmptyString eq_refl)|].
  split; [exact (proj2 Htitle (or_introl eq_refl))|].
  exact (proj2 Havail (or_introl eq_refl)).
Defined.


(** Counterexample to C8 as stated: asked for page 2 with limit 0, the
    listing of a store with a single book reports a totalPages that is no
    number of pages (the quotient by 0 is Infinity), and returns the book on
    that page, since a limit of 0 sets no limit and the skip is 0. *)
Lemma listing_with_limit_0_has_no_last_page :
  getBooks no_regex second_page_limit_0 store_borrowed
    = (mkResponse 200 (BookPage 1 2 Infinity [book_borrowed]), store_borrowed)
  /\ (forall totalPages : Z, Infinity <> Finite totalPages)
  /\ page_of (fst (getBooks no_regex second_page_limit_0 store_borrowed)) <> [].
Proof.
  split; [reflexivity|]. split; [discriminate|].
  cbn. discriminate.
Qed.

(** Instance of the amended C8: the second page of a listing that has a
    single page. *)
Lemma getBooks_pagination_witness :
  1 <= default (Query.page second_page) 1
  /\ 1 <= default (Query.limit second_page) 10
  /\ exists totalPages slice,
       getBooks no_regex second_page store_borrowed
         = (mkResponse 200 (BookPage 1 2 (Finite totalPages) slice), store_borrowed)
       /\ (totalPages - 1) * 10 < 1 <= totalPages * 10
       /\ slice = []
       /\ (totalPages < 2 -> slice = []).
Proof.
  split; [cbn; lia|]. split; [cbn; lia|].
  apply (getBooks_pagination no_regex second_page store_borrowed); cbn; lia.
Defined.


(** * Further properties of the handlers *)

(** ** Lookups after a write *)

Lemma lookup_replace_other (oid : ObjectId) (b' : Book.t) (l : list Book.t) :
  Book._id b' <> oid ->
  lookup_book oid (replace_book b' l) = lookup_book oid l.
Proof.
  intros Hne. unfold lookup_book, replace_book.
  induction l as [|x l IH]; [reflexivity|]. cbn.
  destruct (has_id (Book._id b') x) eqn:Hx.
  - unfold has_id in *. apply N.eqb_eq in Hx.
    destruct (N.eqb_spec (Book._id b') oid) as [He|_]; [contradiction|].
    destruct (N.eqb_spec (Book._id x) oid) as [He|_]; [congruence|].
    exact IH.
  - destruct (has_id oid x); [reflexivity|exact IH].
Qed.

Lemma lookup_remove_same (oid : ObjectId) (l : list Book.t) :
  lookup_book oid (remove_book oid l) = None.
Proof.
  unfold lookup_book, remove_book.
  induction l as [|x l IH]; [reflexivity|]. cbn.
  destruct (has_id oid x) eqn:Hx; cbn; [exact IH|].
  rewrite Hx. exact IH.
Qed.

Lemma lookup_remove_other (oid oid' : ObjectId) (l : list Book.t) :
  oid' <> oid ->
  lookup_book oid' (remove_book oid l) = lookup_book oid' l.
Proof.
  intros Hne. unfold lookup_book, remove_book.
  induction l as [|x l IH]; [reflexivity|]. cbn.
  destruct (has_id oid x) eqn:Hx; cbn.
  - unfold has_id in *. apply N.eqb_eq in Hx.
    destruct (N.eqb_spec (Book._id x) oid') as [He|_]; [congruence|].
    exact IH.
  - destruct (has_id oid' x); [reflexivity|exact IH].
Qed.

Lemma lookup_app_new (oid : ObjectId) (l : list Book.t) (nb : Book.t) :
  lookup_book oid (l ++ [nb])
  = match lookup_book oid l with
    | Some b => Some b
    | None => if has_id oid nb then Some nb else None
    end.
Proof.
  unfold lookup_book. induction l as [|x l IH]; cbn.
  - reflexivity.
  - destruct (has_id oid x); [reflexivity|exact IH].
Qed.

Section Further.

Variable isValid : string -> bool.
Variable castObjectId : string -> option ObjectId.
Variable regex_i : string -> string -> bool.

(** ** Refusals *)

Lemma missing_text_dec (x : field string) :
  missing_text x \/ field_truthy x = true.
Proof.
  unfold missing_text. destruct x as [| |v]; auto.
  cbn. unfold truthy, string_ToBoolean.
  destruct (String.eqb_spec v EmptyString) as [->|_]; auto.
Qed.

Lemma missing_number_dec (x : field Z) :
  missing_number x \/ field_truthy x = true.
Proof.
  unfold missing_number. destruct x as [| |v]; auto.
  cbn. unfold truthy, Z_ToBoolean.
  destruct (Z.eqb_spec v 0) as [->|_]; auto.
Qed.

Lemma addBook_accepted (body : Body.t) (file : option string) (s : Store) :
  field_truthy (Body.title body) = true ->
  field_truthy (Body.author body) = true ->
  field_truthy (Body.category body) = true ->
  field_truthy (Body.isbn body) = true ->
  field_truthy (Body.totalCopies body) = true ->
  statusCode (fst (addBook body file s)) <> 400.
Proof.
  intros T1 T2 T3 T4 T5.
  unfold addBook. cbn zeta. rewrite T1, T2, T3, T4, T5. cbn [negb orb].
  destruct (field_truthy_Given _ T1) as (tl & -> & _).
  destruct (field_truthy_Given _ T2) as (au & -> & _).
  destruct (field_truthy_Given _ T3) as (ca & -> & _).
  destruct (field_truthy_Given _ T4) as (isb & -> & _).
  destruct (field_truthy_Given _ T5) as (t & Ht & _).
  unfold try_catch_500, bind, Book_new, bind, new_ObjectId, js_or, Book_insert.
  rewrite Ht.
  destruct (field_truthy (Body.availableCopies body));
    [destruct (Body.availableCopies body) as [| |a]|]; cbn -[isbn_taken];
    try discriminate;
    destruct (isbn_taken _ _ _); cbn; discriminate.
Qed.

(** X1.  Add is answered 400 exactly when title, author, category or isbn
    is absent, null or the empty string, or totalCopies is absent, null or
    0; the refusal leaves the store as it was. *)
Theorem add_refused_iff_required_field_missing
    (body : Body.t) (file : option string) (s : Store) :
  (statusCode (fst (addBook body file s)) = 400
   <-> missing_text (Body.title body) \/ missing_text (Body.author body)
       \/ missing_text (Body.category body) \/ missing_text (Body.isbn body)
       \/ missing_number (Body.totalCopies body))
  /\ (statusCode (fst (addBook body file s)) = 400 ->
      addBook body file s
      = (mkResponse 400
           (Message "All fields except image and description are required"), s)).
Proof.
  split; [split|].
  - intros H400.
    destruct (missing_text_dec (Body.title body)) as [M|T1]; [tauto|].
    destruct (missing_text_dec (Body.author body)) as [M|T2]; [tauto|].
    destruct (missing_text_dec (Body.category body)) as [M|T3]; [tauto|].
    destruct (missing_text_dec (Body.isbn body)) as [M|T4]; [tauto|].
    destruct (missing_number_dec (Body.totalCopies body)) as [M|T5]; [tauto|].
    now elim (addBook_accepted body file s T1 T2 T3 T4 T5).
  - intros Hmiss.
    destruct (addBook_effect body file s)
      as [->|(tl & au & ca & isb & t & Htl & Hau & Hca & Hisb & Ht & Ht0
              & Ntl & Nau & Nca & Nisb & _)]; [reflexivity|].
    exfalso. unfold missing_text, missing_number in Hmiss.
    rewrite Htl, Hau, Hca, Hisb, Ht in Hmiss.
    destruct Hmiss as [[H|[H|H]]|[[H|[H|H]]|[[H|[H|H]]|[[H|[H|H]]|[H|[H|H]]]]]];
      congruence.
  - destruct (addBook_effect body file s)
      as [H|(tl & au & ca & isb & t & _ & _ & _ & _ & _ & _ & _ & _ & _ & _ & Heq)];
      [intros _; exact H|].
    cbn zeta in Heq. rewrite Heq.
    destruct (isbn_taken (nextId s) isb (books s)); discriminate.
Qed.

(** X2.  A well-formed identifier that no stored book carries is answered
    404 "Book not found" by Get, Update, Delete, Borrow and Return, none of
    which touches the store. *)
Theorem unknown_id_not_found
    (id : string) (oid : ObjectId) (body : Body.t) (file : option string)
    (user : ObjectId) (now now' : Date) (s : Store) :
  isValid id = true ->
  castObjectId id = Some oid ->
  lookup_book oid (books s) = None ->
  getBookById isValid castObjectId id s
    = (mkResponse 404 (Message "Book not found"), s)
  /\ updateBook castObjectId id body file s
    = (mkResponse 404 (Message "Book not found"), s)
  /\ deleteBook castObjectId id s
    = (mkResponse 404 (Message "Book not found"), s)
  /\ borrowBook castObjectId id user now now' s
    = (mkResponse 404 (Message "Book not found"), s)
  /\ returnBook castObjectId id user now s
    = (mkResponse 404 (Message "Book not found"), s).
Proof.
  intros Hvalid Hcast Hnone.
  unfold getBookById, updateBook, deleteBook, borrowBook, returnBook.
  rewrite Hvalid. cbn.
  unfold try_catch_500, bind.
  rewrite (findById_resolved castObjectId id oid s Hcast), Hnone.
  repeat split.
Qed.

Lemma borrowBook_unavailable
    (id : string) (oid : ObjectId) (b : Book.t) (user : ObjectId)
    (now now' : Date) (s : Store) :
  castObjectId id = Some oid ->
  lookup_book oid (books s) = Some b ->
  Book.status b = Borrowed \/ Book.availableCopies b = 0 ->
  borrowBook castObjectId id user now now' s
    = (mkResponse 400 (Message "Book is currently unavailable"), s).
Proof.
  intros Hcast Hb Hun.
  unfold borrowBook, try_catch_500, bind.
  rewrite (findById_resolved castObjectId id oid s Hcast), Hb.
  destruct Hun as [Hst|Ha].
  - rewrite Hst. reflexivity.
  - rewrite Ha. rewrite orb_true_r. reflexivity.
Qed.

(** X3.  A Borrow of a book that is marked Borrowed or has no available
    copy is answered 400 "Book is currently unavailable", whoever asks, and
    changes nothing. *)
Theorem borrow_unavailable_refused
    (id : string) (oid : ObjectId) (b : Book.t) (user : ObjectId)
    (now now' : Date) (s : Store) :
  castObjectId id = Some oid ->
  lookup_book oid (books s) = Some b ->
  Book.status b = Borrowed \/ Book.availableCopies b = 0 ->
  borrowBook castObjectId id user now now' s
    = (mkResponse 400 (Message "Book is currently unavailable"), s).
Proof.
  intros Hcast Hb Hun.
  pose proof (lookup_book_In oid (books s) b Hb) as Hin.
  destruct Hun as [Hst|Ha].
  - now apply (borrowBook_unavailable id oid b); [| |left].
  - now apply (borrowBook_unavailable id oid b); [| |right].
Qed.

Lemma returnBook_not_borrower
    (id : string) (oid : ObjectId) (b : Book.t) (user : ObjectId)
    (currentDate : Date) (s : Store) :
  castObjectId id = Some oid ->
  lookup_book oid (books s) = Some b ->
  is_borrower b user = false ->
  returnBook castObjectId id user currentDate s
    = (mkResponse 400 (Message "You did not borrow this book"), s).
Proof.
  intros Hcast Hb Hother.
  unfold returnBook, try_catch_500, bind.
  rewrite (findById_resolved castObjectId id oid s Hcast), Hb, Hother.
  reflexivity.
Qed.

(** X4.  A Return asked by anyone but the recorded borrower, and any Return
    of a book with no recorded borrower, is answered 400 "You did not
    borrow this book" and changes nothing. *)
Theorem return_by_other_refused
    (id : string) (oid : ObjectId) (b : Book.t) (user : ObjectId)
    (currentDate : Date) (s : Store) :
  castObjectId id = Some oid ->
  lookup_book oid (books s) = Some b ->
  Book.borrower b <> Some user ->
  returnBook castObjectId id user currentDate s
    = (mkResponse 400 (Message "You did not borrow this book"), s).
Proof.
  intros Hcast Hb Hother.
  apply (returnBook_not_borrower id oid b); [exact Hcast|exact Hb|].
  destruct (is_borrower b user) eqn:Hu; [|reflexivity].
  apply is_borrower_inv in Hu. contradiction.
Qed.

(** ** Borrow and Return, step by step *)

Lemma borrowBook_accepts
    (id : string) (oid : ObjectId) (b : Book.t) (user : ObjectId)
    (now now' : Date) (s : Store) :
  castObjectId id = Some oid ->
  lookup_book oid (books s) = Some b ->
  Book.status b = Available ->
  Book.availableCopies b <> 0 ->
  Book.borrower b <> Some user ->
  borrowBook castObjectId id user now now' s
  = (mkResponse 200
       (BorrowedOk "Book borrowed successfully" (Book.title b) now
          (now' + 604800000)),
     mkStore
       (replace_book
          (Book.mk (Book._id b) (Book.title b) (Book.author b)
             (Book.category b) (Book.isbn b) (Book.description b)
             (Book.bookImage b) (Book.availableCopies b - 1)
             (Book.totalCopies b) Borrowed (Some user) (Some now)
             (Some (now' + 604800000)))
          (books s))
       (borrows s
        ++ [Borrow.mk (nextId s) user (Book._id b) now (now' + 604800000)
              None 0])
       (N.succ (nextId s))).
Proof.
  intros Hcast Hb Hst Ha Hu.
  unfold borrowBook, try_catch_500, bind.
  rewrite (findById_resolved castObjectId id oid s Hcast), Hb, Hst.
  destruct (Z.eqb_spec (Book.availableCopies b) 0) as [H0|_]; [contradiction|].
  destruct (is_borrower b user) eqn:Hbu;
    [apply is_borrower_inv in Hbu; contradiction|].
  cbn -[replace_book]. unfold Book_save. cbn -[replace_book].
  rewrite String.eqb_refl. reflexivity.
Qed.

(** X5.  A Borrow of a stored book that is marked Available, has a number
    of available copies that is a safe integer other than 0 and is not held
    by the requester, made at clock readings for which the two dates are
    time values of the language, is answered 200 with the title and the two
    dates; the book is then marked Borrowed with the requester as borrower
    and one copy less, and the ledger has grown by one open record, with
    fine 0, that carries the requester, the book and the same borrowedAt and
    dueDate as the book, the due date being seven days after the second
    clock reading. *)
Theorem borrow_succeeds
    (id : string) (oid : ObjectId) (b : Book.t) (user : ObjectId)
    (now now' : Date) (s : Store) :
  castObjectId id = Some oid ->
  lookup_book oid (books s) = Some b ->
  Book.status b = Available ->
  Book.availableCopies b <> 0 ->
  Book.borrower b <> Some user ->
  safe_integer (Book.availableCopies b) ->
  valid_time now ->
  valid_time (now' + 604800000) ->
  let result := borrowBook castObjectId id user now now' s in
  fst result
    = mkResponse 200
        (BorrowedOk "Book borrowed successfully" (Book.title b) now
           (now' + 604800000))
  /\ exists b' r,
       lookup_book oid (books (snd result)) = Some b'
       /\ borrows (snd result) = borrows s ++ [r]
       /\ Book.status b' = Borrowed
       /\ Book.borrower b' = Some user
       /\ Book.availableCopies b' = Book.availableCopies b - 1
       /\ Book.totalCopies b' = Book.totalCopies b
       /\ Book.borrowedAt b' = Some (Borrow.borrowedAt r)
       /\ Book.dueDate b' = Some (Borrow.dueDate r)
       /\ Borrow.borrowedAt r = now
       /\ Borrow.dueDate r = now' + 604800000
       /\ Borrow.user r = user
       /\ Borrow.book r = oid
       /\ Borrow.returnedAt r = None
       /\ Borrow.fine r = 0.
Proof.
  intros Hcast Hb Hst Ha Hu _ _ _ result. subst result.
  pose proof (lookup_book_id oid (books s) b Hb) as Hid.
  rewrite (borrowBook_accepts id oid b user now now' s Hcast Hb Hst Ha Hu).
  cbn [fst snd books borrows].
  split; [reflexivity|].
  eexists _, _. split.
  { apply (lookup_replace_book oid (books s) b _ Hb). exact Hid. }
  split; [reflexivity|]. cbn. repeat split. exact Hid.
Qed.

(** X6.  Once a Borrow was answered 200, every further Borrow of that book,
    by the same or by any other user and whatever the number of copies left,
    is answered 400 "Book is currently unavailable" and changes nothing. *)
Theorem borrowed_book_blocks_every_borrow
    (id : string) (user other : ObjectId) (now now' later later' : Date)
    (s s1 : Store) (r1 : Response) :
  borrowBook castObjectId id user now now' s = (r1, s1) ->
  statusCode r1 = 200 ->
  borrowBook castObjectId id other later later' s1
    = (mkResponse 400 (Message "Book is currently unavailable"), s1).
Proof.
  intros Hborrow Hok.
  destruct (borrowBook_success castObjectId id user now now' s s1 r1 Hborrow Hok)
    as (oid & b & Hcast & Hb & _ & _ & ->).
  eapply (borrowBook_unavailable id oid _ other later later' _ Hcast).
  - apply (lookup_replace_book oid (books s) b _ Hb).
    exact (lookup_book_id oid (books s) b Hb).
  - left. reflexivity.
Qed.

(** X7.  After a Return by the recorded borrower, a second Return of the
    book, by that user or any other, is answered 400 "You did not borrow
    this book" and changes nothing. *)
Theorem returned_book_refuses_second_return
    (id : string) (oid : ObjectId) (b : Book.t) (user other : ObjectId)
    (currentDate later : Date) (s : Store) :
  castObjectId id = Some oid ->
  lookup_book oid (books s) = Some b ->
  Book.borrower b = Some user ->
  let s1 := snd (returnBook castObjectId id user currentDate s) in
  returnBook castObjectId id other later s1
    = (mkResponse 400 (Message "You did not borrow this book"), s1).
Proof.
  intros Hcast Hb Hu s1. subst s1.
  rewrite (returnBook_by_borrower castObjectId id oid b user currentDate s
             Hcast Hb Hu).
  cbn [snd].
  eapply (returnBook_not_borrower id oid _ other later _ Hcast).
  - apply (lookup_replace_book oid (books s) b _ Hb).
    exact (lookup_book_id oid (books s) b Hb).
  - reflexivity.
Qed.

(** ** Delete and Add against Get *)

(** X8.  A Delete of a stored book is answered 200; afterwards the
    identifier resolves to no book, so Get answers 404, while every other
    book and the whole ledger, the records of the deleted book included,
    stay as they were. *)
Theorem delete_removes_only_the_book
    (id : string) (oid : ObjectId) (b : Book.t) (s : Store) :
  isValid id = true ->
  castObjectId id = Some oid ->
  lookup_book oid (books s) = Some b ->
  let result := deleteBook castObjectId id s in
  fst result = mkResponse 200 (Message "Book deleted successfully")
  /\ lookup_book oid (books (snd result)) = None
  /\ getBookById isValid castObjectId id (snd result)
     = (mkResponse 404 (Message "Book not found"), snd result)
  /\ (forall oid', oid' <> oid ->
        lookup_book oid' (books (snd result)) = lookup_book oid' (books s))
  /\ borrows (snd result) = borrows s.
Proof.
  intros Hvalid Hcast Hb result. subst result.
  pose proof (lookup_book_id oid (books s) b Hb) as Hid.
  assert (Heq : deleteBook castObjectId id s
                = (mkResponse 200 (Message "Book deleted successfully"),
                   set_books (remove_book oid (books s)) s)).
  { unfold deleteBook, try_catch_500, bind.
    rewrite (findById_resolved castObjectId id oid s Hcast), Hb.
    unfold Book_deleteOne. rewrite Hid. reflexivity. }
  rewrite Heq. unfold set_books. cbn [fst snd books borrows].
  split; [reflexivity|].
  split; [apply lookup_remove_same|].
  split.
  { unfold getBookById. rewrite Hvalid. cbn [negb].
    unfold try_catch_500, bind.
    rewrite (findById_resolved castObjectId id oid _ Hcast). cbn [books].
    rewrite lookup_remove_same. reflexivity. }
  split; [|reflexivity].
  intros oid' Hne. now apply lookup_remove_other.
Qed.

(** X9.  After an Add answered 201 on a store that holds no book under the
    next identifier, Get by the identifier of the new book answers 200 with
    the very document the Add returned; the books stored before resolve as
    before and the ledger is untouched. *)
Theorem add_then_get_returns_the_book
    (body : Body.t) (file : option string) (id : string) (s : Store) :
  statusCode (fst (addBook body file s)) = 201 ->
  isValid id = true ->
  castObjectId id = Some (nextId s) ->
  lookup_book (nextId s) (books s) = None ->
  let result := addBook body file s in
  exists nb,
    fst result = mkResponse 201 (BookDoc nb)
    /\ getBookById isValid castObjectId id (snd result)
       = (mkResponse 200 (BookDoc nb), snd result)
    /\ (forall oid b, lookup_book oid (books s) = Some b ->
          lookup_book oid (books (snd result)) = Some b)
    /\ borrows (snd result) = borrows s.
Proof.
  intros H201 Hvalid Hcast Hfresh result. subst result.
  destruct (addBook_effect body file s)
    as [Heq|(tl & au & ca & isb & t & _ & _ & _ & _ & _ & _ & _ & _ & _ & _ & Heq)];
    [rewrite Heq in H201; discriminate|].
  cbn zeta in Heq. rewrite Heq in H201 |- *.
  destruct (isbn_taken (nextId s) isb (books s)); [discriminate|].
  eexists. split; [reflexivity|]. cbn [snd fst].
  split.
  { unfold getBookById. rewrite Hvalid. cbn [negb].
    unfold try_catch_500, bind.
    rewrite (findById_resolved castObjectId id (nextId s) _ Hcast).
    cbn [books]. rewrite lookup_app_new, Hfresh.
    unfold has_id. cbn [Book._id]. rewrite N.eqb_refl. reflexivity. }
  split; [|reflexivity].
  intros oid b Hb. cbn [books]. rewrite lookup_app_new, Hb. reflexivity.
Qed.

(** ** Writes to one book *)

(** X10.  Update, Borrow and Return addressed to one book leave every book
    with another identifier exactly as it was, whatever their outcome, and
    Update never writes to the ledger. *)
Theorem writes_leave_other_books_alone
    (id : string) (oid oid' : ObjectId) (body : Body.t) (file : option string)
    (user : ObjectId) (now now' : Date) (s : Store) :
  castObjectId id = Some oid ->
  oid' <> oid ->
  lookup_book oid' (books (snd (updateBook castObjectId id body file s)))
    = lookup_book oid' (books s)
  /\ borrows (snd (updateBook castObjectId id body file s)) = borrows s
  /\ lookup_book oid' (books (snd (borrowBook castObjectId id user now now' s)))
     = lookup_book oid' (books s)
  /\ lookup_book oid' (books (snd (returnBook castObjectId id user now s)))
     = lookup_book oid' (books s).
Proof.
  intros Hcast Hne.
  split; [|split; [|split]].
  - unfold updateBook, try_catch_500, bind.
    rewrite (findById_resolved castObjectId id oid s Hcast).
    destruct (lookup_book oid (books s)) as [b|] eqn:Hb; [|reflexivity].
    unfold Book_save. cbn [Book.isbn Book._id].
    destruct (negb _ && _); [reflexivity|].
    unfold set_books. cbn [snd respond ret books].
    apply lookup_replace_other. cbn [Book._id].
    rewrite (lookup_book_id oid (books s) b Hb). congruence.
  - unfold updateBook, try_catch_500, bind.
    rewrite (findById_resolved castObjectId id oid s Hcast).
    destruct (lookup_book oid (books s)) as [b|] eqn:Hb; [|reflexivity].
    unfold Book_save. destruct (negb _ && _); reflexivity.
  - destruct (borrowBook_store castObjectId id user now now' s) as [->|Hok];
      [reflexivity|].
    destruct (borrowBook castObjectId id user now now' s) as [r1 s1] eqn:Hrun.
    destruct (borrowBook_success castObjectId id user now now' s s1 r1 Hrun Hok)
      as (o & b & Hcast' & Hb & _ & _ & ->).
    cbn [snd books]. apply lookup_replace_other. cbn [Book._id].
    rewrite (lookup_book_id o (books s) b Hb). congruence.
  - destruct (returnBook_store castObjectId id user now s)
      as [->|(o & b & Hcast' & Hb & Hu)]; [reflexivity|].
    rewrite (returnBook_by_borrower castObjectId id o b user now s Hcast' Hb Hu).
    cbn [snd books]. apply lookup_replace_other. cbn [Book._id].
    rewrite (lookup_book_id o (books s) b Hb). congruence.
Qed.

(** ** The late fee *)

Lemma ceil_div_monotone (a a' b : Z) :
  0 < b -> a <= a' -> ceil_div a b <= ceil_div a' b.
Proof.
  intros Hb Ha.
  pose proof (ceil_div_bounds a b Hb). pose proof (ceil_div_bounds a' b Hb).
  nia.
Qed.

(** X11.  The late fee of a book due at [due] is a multiple of 5 that is
    never negative, is positive exactly when the return comes after [due],
    is then at least 5, and never goes down when the return comes later. *)
Theorem late_fee_grows_with_lateness (due t1 t2 : Date) :
  t1 <= t2 ->
  0 <= late_fine (Some due) t1 <= late_fine (Some due) t2
  /\ (exists days, 0 <= days /\ late_fine (Some due) t1 = 5 * days)
  /\ (0 < late_fine (Some due) t1 <-> due < t1)
  /\ (due < t1 -> 5 <= late_fine (Some due) t1).
Proof.
  intros Hle. unfold late_fine.
  assert (Hday : 0 < day_ms) by reflexivity.
  destruct (Z.ltb_spec due t1) as [H1|H1];
    destruct (Z.ltb_spec due t2) as [H2|H2]; try lia.
  - pose proof (ceil_div_bounds (t1 - due) day_ms Hday) as B1.
    pose proof (ceil_div_monotone (t1 - due) (t2 - due) day_ms Hday ltac:(lia)).
    assert (1 <= ceil_div (t1 - due) day_ms) by nia.
    split; [lia|]. split; [exists (ceil_div (t1 - due) day_ms); lia|].
    split; [split; lia|]. lia.
  - pose proof (ceil_div_bounds (t2 - due) day_ms Hday) as B2.
    assert (1 <= ceil_div (t2 - due) day_ms) by nia.
    split; [lia|]. split; [exists 0; lia|]. split; [split; lia|]. lia.
  - split; [lia|]. split; [exists 0; lia|]. split; [split; lia|]. lia.
Qed.

(** ** Newest first *)

Lemma StronglySorted_filter {A} (R : A -> A -> Prop) (p : A -> bool) (l : list A) :
  StronglySorted R l -> StronglySorted R (filter p l).
Proof.
  induction 1 as [|x l Hs IH Hx]; cbn; [constructor|].
  destruct (p x); [|exact IH].
  constructor; [exact IH|].
  rewrite Forall_forall in *. intros y Hy. apply Hx.
  now apply filter_In in Hy.
Qed.

Lemma In_firstn {A} (n : nat) (l : list A) (x : A) :
  In x (firstn n l) -> In x l.
Proof.
  revert n. induction l as [|y l IH]; intros [|n]; cbn; try tauto.
  intros [H|H]; [now left|right; now apply (IH n)].
Qed.

Lemma StronglySorted_firstn {A} (R : A -> A -> Prop) (n : nat) (l : list A) :
  StronglySorted R l -> StronglySorted R (firstn n l).
Proof.
  intros Hs. revert n. induction Hs as [|x l Hs IH Hx]; intros [|n]; cbn;
    try constructor.
  - apply IH.
  - rewrite Forall_forall in *. intros y Hy. apply Hx.
    now apply In_firstn in Hy.
Qed.

Lemma StronglySorted_map {A B} (R : B -> B -> Prop) (f : A -> B) (l : list A) :
  StronglySorted (fun a b => R (f a) (f b)) l -> StronglySorted R (map f l).
Proof.
  induction 1 as [|x l Hs IH Hx]; cbn; constructor; [exact IH|].
  rewrite Forall_forall in *. intros y Hy.
  apply in_map_iff in Hy as (a & <- & Ha). now apply Hx.
Qed.

Lemma insert_desc_sorted (r : Borrow.t) (l : list Borrow.t) :
  StronglySorted (fun a b => Borrow.borrowedAt b <= Borrow.borrowedAt a) l ->
  StronglySorted (fun a b => Borrow.borrowedAt b <= Borrow.borrowedAt a)
    (insert_desc r l).
Proof.
  induction 1 as [|x l Hs IH Hx]; cbn.
  - constructor; constructor.
  - destruct (Z.leb_spec (Borrow.borrowedAt x) (Borrow.borrowedAt r)) as [Hle|Hlt].
    + constructor; [now constructor|].
      constructor; [exact Hle|].
      rewrite Forall_forall in *. intros y Hy. specialize (Hx y Hy). lia.
    + constructor; [exact IH|].
      rewrite Forall_forall in *. intros y Hy.
      apply In_insert_desc in Hy as [->|Hy]; [lia|now apply Hx].
Qed.

Lemma sort_desc_sorted (l : list Borrow.t) :
  StronglySorted (fun a b => Borrow.borrowedAt b <= Borrow.borrowedAt a)
    (sort_desc l).
Proof.
  unfold sort_desc. induction l as [|r l IH]; cbn; [constructor|].
  now apply insert_desc_sorted.
Qed.

Lemma insert_desc_length (r : Borrow.t) (l : list Borrow.t) :
  List.length (insert_desc r l) = S (List.length l).
Proof.
  induction l as [|x l IH]; cbn; [reflexivity|].
  destruct (Borrow.borrowedAt x <=? Borrow.borrowedAt r); cbn; congruence.
Qed.

Lemma sort_desc_length (l : list Borrow.t) :
  List.length (sort_desc l) = List.length l.
Proof.
  unfold sort_desc. induction l as [|r l IH]; cbn; [reflexivity|].
  rewrite insert_desc_length. congruence.
Qed.

Lemma insert_desc_perm (r : Borrow.t) (l : list Borrow.t) :
  Permutation (insert_desc r l) (r :: l).
Proof.
  induction l as [|x l IH]; cbn; [reflexivity|].
  destruct (Borrow.borrowedAt x <=? Borrow.borrowedAt r); [reflexivity|].
  rewrite IH. apply perm_swap.
Qed.

Lemma sort_desc_perm (l : list Borrow.t) : Permutation (sort_desc l) l.
Proof.
  unfold sort_desc. induction l as [|r l IH]; cbn; [reflexivity|].
  rewrite insert_desc_perm. now constructor.
Qed.

(** ** History of a user *)

Lemma mapM_history_resolved (s : Store) (l : list Borrow.t) :
  (forall r, In r l -> lookup_book (Borrow.book r) (books s) <> None) ->
  exists h,
    mapM history_entry
      (map (fun r => (r, lookup_book (Borrow.book r) (books s))) l) s
    = Resolved h s
    /\ Forall2 (history_of s) l h.
Proof.
  induction l as [|r l IH]; intros Hres; cbn.
  - exists []. split; [reflexivity|constructor].
  - destruct IH as (h & Hh & Hall); [intros x Hx; apply Hres; now right|].
    destruct (lookup_book (Borrow.book r) (books s)) as [b|] eqn:Hb;
      [|now elim (Hres r (or_introl eq_refl))].
    unfold bind. cbn. unfold bind. rewrite Hh. cbn.
    eexists. split; [reflexivity|].
    constructor; [|exact Hall].
    exists b. cbn. rewrite Hb. unfold is_open, is_some.
    repeat split.
    + now destruct (Borrow.returnedAt r).
    + unfold truthy, Z_ToBoolean.
      destruct (Z.eqb_spec (Borrow.fine r) 0) as [->|_]; reflexivity.
Qed.

Lemma Forall2_history_dates (s : Store) (l : list Borrow.t) (h : list HistoryEntry) :
  Forall2 (history_of s) l h ->
  map h_borrowedAt h = map Borrow.borrowedAt l.
Proof.
  induction 1 as [|r e l h (b & _ & _ & _ & _ & _ & _ & _ & Hd & _) _ IH]; cbn;
    [reflexivity|].
  now rewrite Hd, IH.
Qed.

(** X12.  When the book of each Borrow record of a user still resolves,
    the history is answered 200 and leaves the store alone; its entries
    stand one for one for the records of that user and of no other, in
    newest-first order of borrowedAt, each with the identifier, the three
    dates and the fine of its record, the title, author and category of the
    book, and the label "Returned" when returnedAt is set and "Borrowed"
    otherwise. *)
Theorem history_lists_the_records_of_the_user (user : ObjectId) (s : Store) :
  (forall r, In r (borrows s) -> Borrow.user r = user ->
     lookup_book (Borrow.book r) (books s) <> None) ->
  exists mine h,
    getUserHistory user s = (mkResponse 200 (History h), s)
    /\ Permutation mine
         (filter (fun r => N.eqb (Borrow.user r) user) (borrows s))
    /\ Forall2 (history_of s) mine h
    /\ newest_first (map h_borrowedAt h).
Proof.
  intros Hres.
  set (mine := sort_desc (filter (fun r => N.eqb (Borrow.user r) user) (borrows s))).
  destruct (mapM_history_resolved s mine) as (h & Hh & Hall).
  { intros r Hr. unfold mine in Hr. apply (proj1 (In_sort_desc _ _)) in Hr.
    apply filter_In in Hr as [Hin Hu].
    apply N.eqb_eq in Hu. now apply Hres. }
  exists mine, h. split.
  { unfold getUserHistory, try_catch_500, bind, Borrow_find_populated.
    fold mine. rewrite Hh. reflexivity. }
  split; [apply sort_desc_perm|]. split; [exact Hall|].
  unfold newest_first. rewrite (Forall2_history_dates s mine h Hall).
  apply StronglySorted_map. apply sort_desc_sorted.
Qed.

(** ** Recent borrowings *)

(** X13.  The recent borrowings are always answered 200 and leave the store
    alone; the list holds at most ten entries, in newest-first order of
    borrowedAt, each a record of the ledger whose book and user both resolve
    and are shown by title and author, name and email. *)
Theorem recent_borrowings_resolved_and_newest_first
    (users : list User.t) (s : Store) :
  exists valid log,
    getRecentBorrowings users s
      = (mkReport 200 (RecentBorrowings valid), log, s)
    /\ (List.length valid <= 10)%nat
    /\ newest_first (map (fun p => Borrow.borrowedAt (pb_record p)) valid)
    /\ forall p, In p valid ->
         In (pb_record p) (borrows s)
         /\ exists b u,
              lookup_book (Borrow.book (pb_record p)) (books s) = Some b
              /\ lookup_user (Borrow.user (pb_record p)) users = Some u
              /\ pb_book p = Some (book_ref b)
              /\ pb_user p = Some (user_ref u).
Proof.
  unfold getRecentBorrowings, Borrow_find_recent. cbn zeta.
  eexists _, _. split; [reflexivity|].
  set (shown := firstn 10 (sort_desc (borrows s))).
  split.
  { etransitivity; [apply filter_length_le|].
    rewrite length_map. apply firstn_le_length. }
  split.
  { unfold newest_first. apply StronglySorted_map. apply StronglySorted_filter.
    apply (StronglySorted_map
             (fun p q => Borrow.borrowedAt (pb_record q)
                         <= Borrow.borrowedAt (pb_record p))).
    cbn [pb_record]. apply StronglySorted_firstn. apply sort_desc_sorted. }
  intros p Hp. apply filter_In in Hp as [Hp Hok].
  apply in_map_iff in Hp as (r & <- & Hr). cbn [pb_record pb_book pb_user] in *.
  split.
  { unfold shown in Hr. apply In_firstn in Hr.
    exact (proj1 (In_sort_desc _ _) Hr). }
  destruct (lookup_book (Borrow.book r) (books s)) as [b|]; [|discriminate].
  destruct (lookup_user (Borrow.user r) users) as [u|]; [|discriminate].
  exists b, u. repeat split.
Qed.

(** X14.  With at most ten records in the ledger, a record appears among
    the recent borrowings if its book and its user both resolve; a record
    whose book or user is gone never appears, and is instead written to the
    warning log with its identifier and the two missing flags. *)
Theorem recent_borrowings_withhold_dangling_records
    (users : list User.t) (s : Store) (r : Borrow.t) :
  In r (borrows s) ->
  (List.length (borrows s) <= 10)%nat ->
  let missingBook := negb (is_some (lookup_book (Borrow.book r) (books s))) in
  let missingUser := negb (is_some (lookup_user (Borrow.user r) users)) in
  exists valid log,
    getRecentBorrowings users s
      = (mkReport 200 (RecentBorrowings valid), log, s)
    /\ (missingBook = false -> missingUser = false ->
        exists p, In p valid /\ pb_record p = r)
    /\ (missingBook = true \/ missingUser = true ->
        (forall p, In p valid -> pb_record p <> r)
        /\ exists invalid,
             log = [Warn_invalid invalid]
             /\ In (Borrow._id r, missingBook, missingUser) invalid).
Proof.
  intros Hin Hlen missingBook missingUser.
  unfold getRecentBorrowings, Borrow_find_recent. cbn zeta.
  rewrite (firstn_all2 (sort_desc (borrows s)))
    by (rewrite sort_desc_length; exact Hlen).
  eexists _, _. split; [reflexivity|].
  set (pop := fun r0 : Borrow.t =>
                mkPopulatedBorrow r0
                  (option_map book_ref (lookup_book (Borrow.book r0) (books s)))
                  (option_map user_ref (lookup_user (Borrow.user r0) users))).
  assert (Hpop : In (pop r) (map pop (sort_desc (borrows s)))).
  { apply in_map. now apply In_sort_desc. }
  assert (Hb : is_some (pb_book (pop r)) = negb missingBook).
  { subst missingBook. cbn. now destruct (lookup_book _ _). }
  assert (Hu : is_some (pb_user (pop r)) = negb missingUser).
  { subst missingUser. cbn. now destruct (lookup_user _ _). }
  split.
  - intros Mb Mu. exists (pop r). split; [|reflexivity].
    apply filter_In. split; [exact Hpop|]. rewrite Hb, Hu, Mb, Mu. reflexivity.
  - intros Hmiss. split.
    + intros p Hp Heq. apply filter_In in Hp as [Hp Hok].
      apply in_map_iff in Hp as (r0 & <- & _). cbn in Heq. subst r0.
      change (is_some (pb_book (pop r)) && is_some (pb_user (pop r)) = true) in Hok.
      rewrite Hb, Hu in Hok.
      destruct Hmiss as [-> | ->]; [discriminate|].
      rewrite andb_false_r in Hok. discriminate.
    + set (invalid :=
             filter (fun borrowing =>
                       negb (is_some (pb_book borrowing))
                       || negb (is_some (pb_user borrowing)))
                    (map pop (sort_desc (borrows s)))).
      assert (Hinv : In (pop r) invalid).
      { apply filter_In. split; [exact Hpop|]. rewrite Hb, Hu.
        rewrite !negb_involutive. destruct Hmiss as [-> | ->];
          [reflexivity|apply orb_true_r]. }
      exists (map (fun b => (Borrow._id (pb_record b),
                             negb (is_some (pb_book b)),
                             negb (is_some (pb_user b)))) invalid).
      split.
      * destruct invalid as [|x l]; [contradiction|reflexivity].
      * apply in_map_iff. exists (pop r). split; [|exact Hinv].
        rewrite Hb, Hu, !negb_involutive. reflexivity.
Qed.

(** ** Dashboard *)

Lemma filter_length_impl {A} (p q : A -> bool) (l : list A) :
  (forall x, p x = true -> q x = true) ->
  (List.length (filter p l) <= List.length (filter q l))%nat.
Proof.
  intros Himp. induction l as [|x l IH]; cbn; [lia|].
  destruct (p x) eqn:Hp.
  - rewrite (Himp x Hp). cbn. lia.
  - destruct (q x); cbn; lia.
Qed.

(** X15.  The dashboard is always answered 200, logs nothing and leaves the
    store alone; it reports the number of books, of users, of open Borrow
    records and of open records due before the clock, and never more
    available books than books, more overdue records than open ones, nor
    more open records than the ledger holds; at a later clock the overdue
    count is at least what it was. *)
Theorem dashboard_counts_are_ordered
    (users : list User.t) (currentDate later : Date) (s : Store) :
  currentDate <= later ->
  exists availableBooks borrowedBooks overdueBooks overdueLater,
    getDashboardStats users currentDate s
      = (mkReport 200
           (DashboardStats (Z.of_nat (List.length (books s))) availableBooks
              borrowedBooks overdueBooks (Z.of_nat (List.length users))),
         [], s)
    /\ getDashboardStats users later s
      = (mkReport 200
           (DashboardStats (Z.of_nat (List.length (books s))) availableBooks
              borrowedBooks overdueLater (Z.of_nat (List.length users))),
         [], s)
    /\ 0 <= availableBooks <= Z.of_nat (List.length (books s))
    /\ 0 <= overdueBooks <= overdueLater
    /\ overdueLater <= borrowedBooks <= Z.of_nat (List.length (borrows s))
    /\ borrowedBooks
       = Z.of_nat (List.length (filter (fun r => negb (is_some (Borrow.returnedAt r)))
                                  (borrows s))).
Proof.
  intros Hle.
  unfold getDashboardStats, bind, Book_count, Borrow_count, ret. cbn zeta.
  eexists _, _, _, _. split.
  { f_equal. f_equal. f_equal. f_equal.
    rewrite (forallb_filter_id (fun _ => true)); [reflexivity|].
    now apply forallb_forall. }
  split.
  { f_equal. f_equal. f_equal. f_equal.
    rewrite (forallb_filter_id (fun _ => true)); [reflexivity|].
    now apply forallb_forall. }
  split.
  { split; [lia|]. apply Nat2Z.inj_le. apply filter_length_le. }
  split.
  { split; [lia|]. apply Nat2Z.inj_le. apply filter_length_impl.
    intros r. unfold is_overdue. intros H. apply andb_prop in H as [-> H].
    apply Z.ltb_lt in H. cbn. apply Z.ltb_lt. lia. }
  split.
  { split; apply Nat2Z.inj_le.
    - apply filter_length_impl. intros r. unfold is_overdue.
      intros H. now apply andb_prop in H as [-> _].
    - apply filter_length_le. }
  reflexivity.
Qed.

(** ** Ledger and borrower slots *)

Lemma NoDup_map_eq {A B} (f : A -> B) (l : list A) (x y : A) :
  NoDup (map f l) -> In x l -> In y l -> f x = f y -> x = y.
Proof.
  induction l as [|a l IH]; cbn; [contradiction|].
  intros Hnd Hx Hy Heq. inversion Hnd as [|? ? Hnotin Hnd']; subst.
  destruct Hx as [->|Hx], Hy as [->|Hy]; auto.
  - elim Hnotin. rewrite Heq. now apply in_map.
  - elim Hnotin. rewrite <- Heq. now apply in_map.
Qed.

Lemma map_id_replace_book (b' : Book.t) (l : list Book.t) :
  map Book._id (replace_book b' l) = map Book._id l.
Proof.
  unfold replace_book. induction l as [|x l IH]; cbn; [reflexivity|].
  rewrite IH. destruct (has_id (Book._id b') x) eqn:Hx; [|reflexivity].
  unfold has_id in Hx. apply N.eqb_eq in Hx. congruence.
Qed.

Lemma map_id_replace_borrow (r' : Borrow.t) (l : list Borrow.t) :
  map Borrow._id (replace_borrow r' l) = map Borrow._id l.
Proof.
  unfold replace_borrow. induction l as [|x l IH]; cbn; [reflexivity|].
  rewrite IH. destruct (N.eqb_spec (Borrow._id x) (Borrow._id r')); congruence.
Qed.

Lemma In_replace_book_inv (b' x : Book.t) (l : list Book.t) :
  In x (replace_book b' l) ->
  x = b' \/ (In x l /\ Book._id x <> Book._id b').
Proof.
  unfold replace_book. intros H. apply in_map_iff in H as (y & Hy & Hin).
  destruct (has_id (Book._id b') y) eqn:Hid; [now left|].
  subst y. right. split; [exact Hin|].
  unfold has_id in Hid. now apply N.eqb_neq in Hid.
Qed.

Lemma In_replace_book_other (b' x : Book.t) (l : list Book.t) :
  In x l -> Book._id x <> Book._id b' -> In x (replace_book b' l).
Proof.
  intros Hin Hne. unfold replace_book. apply in_map_iff. exists x.
  split; [|exact Hin]. unfold has_id.
  destruct (N.eqb_spec (Book._id x) (Book._id b')); [contradiction|reflexivity].
Qed.

Lemma In_replace_book_new (b b' : Book.t) (l : list Book.t) :
  In b l -> Book._id b = Book._id b' -> In b' (replace_book b' l).
Proof.
  intros Hin Heq. unfold replace_book. apply in_map_iff. exists b.
  split; [|exact Hin]. unfold has_id. now rewrite Heq, N.eqb_refl.
Qed.

Lemma In_replace_borrow_inv (r' x : Borrow.t) (l : list Borrow.t) :
  In x (replace_borrow r' l) ->
  x = r' \/ (In x l /\ Borrow._id x <> Borrow._id r').
Proof.
  unfold replace_borrow. intros H. apply in_map_iff in H as (y & Hy & Hin).
  destruct (N.eqb_spec (Borrow._id y) (Borrow._id r')) as [_|Hne]; [now left|].
  subst y. right. now split.
Qed.

Lemma In_replace_borrow_other (r' x : Borrow.t) (l : list Borrow.t) :
  In x l -> Borrow._id x <> Borrow._id r' -> In x (replace_borrow r' l).
Proof.
  intros Hin Hne. unfold replace_borrow. apply in_map_iff. exists x.
  split; [|exact Hin].
  destruct (N.eqb_spec (Borrow._id x) (Borrow._id r')); [contradiction|reflexivity].
Qed.

Lemma find_exists {A} (p : A -> bool) (l : list A) (x : A) :
  In x l -> p x = true -> exists y, find p l = Some y.
Proof.
  intros Hin Hp. destruct (find p l) as [y|] eqn:Hf; [now exists y|].
  rewrite (find_none p l Hf x Hin) in Hp. discriminate.
Qed.

Lemma open_borrow_of_inv (book user : ObjectId) (r : Borrow.t) :
  open_borrow_of book user r = true ->
  Borrow.book r = book /\ Borrow.user r = user /\ Borrow.returnedAt r = None.
Proof.
  unfold open_borrow_of. intros H.
  apply andb_prop in H as [H Hopen]. apply andb_prop in H as [Hb Hu].
  apply N.eqb_eq in Hb, Hu. destruct (Borrow.returnedAt r); [discriminate|].
  auto.
Qed.

Lemma fresh_id_not_in {A} (f : A -> N) (l : list A) (n : N) :
  (forall x, In x l -> (f x < n)%N) -> ~ In n (map f l).
Proof.
  intros Hlt Hin. apply in_map_iff in Hin as (x & Hx & Hin).
  specialize (Hlt x Hin). lia.
Qed.

Lemma NoDup_snoc {A} (l : list A) (a : A) :
  NoDup l -> ~ In a l -> NoDup (l ++ [a]).
Proof.
  intros Hnd Hnotin. apply NoDup_app; [exact Hnd|repeat constructor; auto|].
  intros x Hx [<-|[]]. contradiction.
Qed.

Lemma add_keeps_ledger_consistent
    (body : Body.t) (file : option string) (s : Store) :
  ledger_consistent s -> ledger_consistent (snd (addBook body file s)).
Proof.
  intros Hinv.
  destruct (addBook_effect body file s)
    as [->|(tl & au & ca & isb & t & _ & _ & _ & _ & _ & _ & _ & _ & _ & _ & Heq)];
    [exact Hinv|].
  cbn zeta in Heq. rewrite Heq. clear Heq.
  destruct Hinv as ((Hbooks & Hrecs) & (Ubooks & Urecs) & Hslot & Hhas & Hopen & Hone).
  destruct (isbn_taken (nextId s) isb (books s)); cbn [snd].
  - split; [|split; [split; assumption|split; [assumption|split; [assumption|split; assumption]]]].
    split; cbn [books borrows nextId]; intros x Hx;
      [specialize (Hbooks x Hx)|specialize (Hrecs x Hx)]; lia.
  - unfold ledger_consistent, ids_below, ids_unique, borrower_has_open_record,
      open_record_has_borrower, one_open_record_per_book.
    cbn [books borrows nextId].
    split; [split|].
    + intros x Hx. apply in_app_iff in Hx as [Hx|[<-|[]]];
        [specialize (Hbooks x Hx); lia|cbn; lia].
    + intros x Hx. specialize (Hrecs x Hx). lia.
    + split; [split; [|exact Urecs]|].
      * rewrite map_app. cbn [map Book._id]. apply NoDup_snoc; [exact Ubooks|].
        now apply fresh_id_not_in.
      * split.
        { apply Forall_app. split; [exact Hslot|].
          constructor; [|constructor]. intros H. now elim H. }
        split.
        { intros x u Hx Hu. apply in_app_iff in Hx as [Hx|[<-|[]]];
            [now apply (Hhas x u)|discriminate]. }
        split; [|exact Hone].
        intros r Hr Hnull. destruct (Hopen r Hr Hnull) as (x & Hx & Hid & Hu).
        exists x. split; [apply in_app_iff; now left|now split].
Qed.

Lemma borrow_keeps_ledger_consistent
    (id : string) (user : ObjectId) (now now' : Date) (s : Store) :
  ledger_consistent s ->
  ledger_consistent (snd (borrowBook castObjectId id user now now' s)).
Proof.
  intros Hinv.
  destruct (borrowBook_store castObjectId id user now now' s) as [->|Hok];
    [exact Hinv|].
  destruct (borrowBook castObjectId id user now now' s) as [r1 s1] eqn:Hrun.
  destruct (borrowBook_success castObjectId id user now now' s s1 r1 Hrun Hok)
    as (oid & b & Hcast & Hb & Hst & Ha & ->).
  cbn [snd].
  destruct Hinv as ((Hbooks & Hrecs) & (Ubooks & Urecs) & Hslot & Hhas & Hopen & Hone).
  pose proof (lookup_book_In oid _ b Hb) as Hbin.
  assert (Hfree : Book.borrower b = None).
  { rewrite Forall_forall in Hslot. specialize (Hslot b Hbin).
    unfold slot_inv in Hslot.
    destruct (Book.borrower b); [|reflexivity].
    rewrite Hst in Hslot. discriminate Hslot. discriminate. }
  assert (Hnone : forall r, In r (borrows s) -> Borrow.returnedAt r = None ->
                            Borrow.book r <> Book._id b).
  { intros r Hr Hnull Heq. destruct (Hopen r Hr Hnull) as (x & Hx & Hid & Hu).
    assert (x = b) by (apply (NoDup_map_eq Book._id (books s)); congruence).
    subst x. congruence. }
  set (b1 := Book.mk _ _ _ _ _ _ _ _ _ _ _ _ _).
  set (rec := Borrow.mk _ _ _ _ _ _ _).
  assert (Hid1 : Book._id b1 = Book._id b) by reflexivity.
  unfold ledger_consistent, ids_below, ids_unique, borrower_has_open_record,
    open_record_has_borrower, one_open_record_per_book.
  cbn [books borrows nextId].
  split; [split|split; [split|split; [|split; [|split]]]].
  - intros x Hx. apply In_replace_book_inv in Hx as [->|[Hx _]].
    + rewrite Hid1. specialize (Hbooks b Hbin). lia.
    + specialize (Hbooks x Hx). lia.
  - intros x Hx. apply in_app_iff in Hx as [Hx|[<-|[]]];
      [specialize (Hrecs x Hx); lia|cbn; lia].
  - now rewrite map_id_replace_book.
  - rewrite map_app. cbn [map]. apply NoDup_snoc; [exact Urecs|].
    now apply fresh_id_not_in.
  - apply Forall_replace_book; [exact Hslot|]. intros _. reflexivity.
  - intros x u Hx Hu. apply In_replace_book_inv in Hx as [->|[Hx _]].
    + exists rec. split; [apply in_app_iff; right; now left|].
      cbn in Hu. injection Hu as <-.
      unfold open_borrow_of. cbn. now rewrite !N.eqb_refl.
    + destruct (Hhas x u Hx Hu) as (r & Hr & Hor).
      exists r. split; [apply in_app_iff; now left|exact Hor].
  - intros r Hr Hnull. apply in_app_iff in Hr as [Hr|[<-|[]]].
    + destruct (Hopen r Hr Hnull) as (x & Hx & Hid & Hu).
      exists x. split; [|now split].
      apply In_replace_book_other; [exact Hx|].
      rewrite Hid1, Hid. now apply Hnone.
    + exists b1. split; [now apply (In_replace_book_new b)|]. now split.
  - intros x y Hx Hy Nx Ny Heq.
    apply in_app_iff in Hx as [Hx|[<-|[]]];
      apply in_app_iff in Hy as [Hy|[<-|[]]].
    + now apply Hone.
    + now elim (Hnone x Hx Nx).
    + now elim (Hnone y Hy Ny).
    + reflexivity.
Qed.

Lemma return_keeps_ledger_consistent
    (id : string) (user : ObjectId) (currentDate : Date) (s : Store) :
  ledger_consistent s ->
  ledger_consistent (snd (returnBook castObjectId id user currentDate s)).
Proof.
  intros Hinv.
  destruct (returnBook_store castObjectId id user currentDate s)
    as [->|(oid & b & Hcast & Hb & Hu)]; [exact Hinv|].
  rewrite (returnBook_by_borrower castObjectId id oid b user currentDate s
             Hcast Hb Hu).
  cbn [snd].
  destruct Hinv as ((Hbooks & Hrecs) & (Ubooks & Urecs) & Hslot & Hhas & Hopen & Hone).
  pose proof (lookup_book_In oid _ b Hb) as Hbin.
  destruct (Hhas b user Hbin Hu) as (r & Hr & Hor).
  destruct (find_exists _ _ r Hr Hor) as (r0 & Hfind). rewrite Hfind.
  destruct (find_some _ _ Hfind) as [Hr0 Hor0].
  apply open_borrow_of_inv in Hor0 as (Hbook0 & Huser0 & Hnull0).
  set (b2 := Book.mk _ _ _ _ _ _ _ _ _ _ _ _ _).
  set (r0' := Borrow.mk _ _ _ _ _ _ _).
  assert (Hid2 : Book._id b2 = Book._id b) by reflexivity.
  assert (Hid0 : Borrow._id r0' = Borrow._id r0) by reflexivity.
  unfold ledger_consistent, ids_below, ids_unique, borrower_has_open_record,
    open_record_has_borrower, one_open_record_per_book.
  cbn [books borrows nextId].
  split; [split|split; [split|split; [|split; [|split]]]].
  - intros x Hx. apply In_replace_book_inv in Hx as [->|[Hx _]].
    + rewrite Hid2. now apply Hbooks.
    + now apply Hbooks.
  - intros x Hx. apply In_replace_borrow_inv in Hx as [->|[Hx _]].
    + rewrite Hid0. now apply Hrecs.
    + now apply Hrecs.
  - now rewrite map_id_replace_book.
  - now rewrite map_id_replace_borrow.
  - apply Forall_replace_book; [exact Hslot|]. intros H. now elim H.
  - intros x u Hx Hux. apply In_replace_book_inv in Hx as [->|[Hx Hne]];
      [discriminate|].
    destruct (Hhas x u Hx Hux) as (r1 & Hr1 & Hor1).
    exists r1. split; [|exact Hor1].
    apply In_replace_borrow_other; [exact Hr1|].
    rewrite Hid0. intros Heq.
    assert (r1 = r0) by (apply (NoDup_map_eq Borrow._id (borrows s)); assumption).
    subst r1. apply open_borrow_of_inv in Hor1 as (Hbk & _ & _).
    apply Hne. rewrite Hid2. congruence.
  - intros r1 Hr1 Hnull. apply In_replace_borrow_inv in Hr1 as [->|[Hr1 Hne]];
      [discriminate|].
    destruct (Hopen r1 Hr1 Hnull) as (x & Hx & Hid & Hux).
    exists x. split; [|now split].
    apply In_replace_book_other; [exact Hx|].
    rewrite Hid2. intros Heq.
    apply Hne. rewrite Hid0. f_equal.
    apply Hone; try assumption. congruence.
  - intros x y Hx Hy Nx Ny Heq.
    apply In_replace_borrow_inv in Hx as [->|[Hx _]]; [discriminate|].
    apply In_replace_borrow_inv in Hy as [->|[Hy _]]; [discriminate|].
    now apply Hone.
Qed.

(** Every store built from the empty one by Add, Borrow and Return requests
    is consistent. *)
Lemma run_ledger_consistent (ops : list Op) (s : Store) :
  ledger_consistent s -> ledger_consistent (run castObjectId ops s).
Proof.
  revert s. induction ops as [|op ops IH]; intros s Hinv; [exact Hinv|].
  unfold run. cbn [fold_left]. apply IH.
  destruct op as [body file|id user now now'|id user currentDate]; cbn [step].
  - now apply add_keeps_ledger_consistent.
  - now apply borrow_keeps_ledger_consistent.
  - now apply return_keeps_ledger_consistent.
Qed.

Lemma empty_store_consistent : ledger_consistent empty_store.
Proof.
  unfold ledger_consistent, ids_below, ids_unique, borrower_has_open_record,
    open_record_has_borrower, one_open_record_per_book. cbn.
  repeat split; try constructor; intros; contradiction.
Qed.

(** X16.  In every store built from the empty one by Add, Borrow and Return
    requests the ledger and the borrower slots agree: a book with a recorded
    borrower has an open Borrow record of that book and user, and the book
    of every open Borrow record is stored with the user of the record as
    its borrower. *)
Theorem ledger_and_borrower_slots_agree (ops : list Op) :
  let s := run castObjectId ops empty_store in
  (forall b u, In b (books s) -> Book.borrower b = Some u ->
     exists r, In r (borrows s) /\ Borrow.book r = Book._id b
               /\ Borrow.user r = u /\ Borrow.returnedAt r = None)
  /\ (forall r, In r (borrows s) -> Borrow.returnedAt r = None ->
        exists b, In b (books s) /\ Book._id b = Borrow.book r
                  /\ Book.borrower b = Some (Borrow.user r)).
Proof.
  intros s.
  destruct (run_ledger_consistent ops empty_store empty_store_consistent)
    as (_ & _ & _ & Hhas & Hopen & _).
  split; [|exact Hopen].
  intros b u Hb Hu. destruct (Hhas b u Hb Hu) as (r & Hr & Hor).
  apply open_borrow_of_inv in Hor as (H1 & H2 & H3). now exists r.
Qed.

(** X17.  In every store built from the empty one by Add, Borrow and Return
    requests no two documents of a collection share an identifier, and a
    book has at most one open Borrow record. *)
Theorem at_most_one_open_record_per_book (ops : list Op) :
  let s := run castObjectId ops empty_store in
  NoDup (map Book._id (books s))
  /\ NoDup (map Borrow._id (borrows s))
  /\ forall r1 r2, In r1 (borrows s) -> In r2 (borrows s) ->
       Borrow.returnedAt r1 = None -> Borrow.returnedAt r2 = None ->
       Borrow.book r1 = Borrow.book r2 -> r1 = r2.
Proof.
  intros s.
  destruct (run_ledger_consistent ops empty_store empty_store_consistent)
    as (_ & (U1 & U2) & _ & _ & _ & Hone).
  split; [exact U1|]. split; [exact U2|exact Hone].
Qed.

Lemma replace_borrow_absent (r' : Borrow.t) (l : list Borrow.t) :
  ~ In (Borrow._id r') (map Borrow._id l) -> replace_borrow r' l = l.
Proof.
  unfold replace_borrow. induction l as [|x l IH]; cbn; [reflexivity|].
  intros Hnot.
  destruct (N.eqb_spec (Borrow._id x) (Borrow._id r')) as [He|_];
    [elim Hnot; now left|].
  rewrite IH; [reflexivity|]. intros H. apply Hnot. now right.
Qed.

Lemma open_count_after_close (l : list Borrow.t) (r0 r0' : Borrow.t) :
  NoDup (map Borrow._id l) ->
  In r0 l ->
  is_open r0 = true ->
  is_open r0' = false ->
  Borrow._id r0' = Borrow._id r0 ->
  S (List.length (filter is_open (replace_borrow r0' l)))
  = List.length (filter is_open l).
Proof.
  intros Hnd Hin Hopen Hclosed Hid.
  induction l as [|x l IH]; [contradiction|].
  inversion Hnd as [|? ? Hnot Hnd']; subst.
  unfold replace_borrow in *. cbn [map filter].
  destruct (N.eqb_spec (Borrow._id x) (Borrow._id r0')) as [He|Hne].
  - assert (x = r0).
    { destruct Hin as [H|H]; [exact H|].
      elim Hnot. rewrite He, Hid. now apply in_map. }
    subst x. rewrite Hclosed, Hopen.
    fold (replace_borrow r0' l). rewrite replace_borrow_absent; [reflexivity|].
    now rewrite Hid.
  - destruct Hin as [->|Hin]; [now elim Hne|].
    specialize (IH Hnd' Hin).
    destruct (is_open x); cbn [List.length]; lia.
Qed.

(** X18.  In a store built from the empty one by Add, Borrow and Return
    requests, a Return by the recorded borrower always finds the open Borrow
    record of that book and user: the record is closed with returnedAt at
    the clock and the late fee as fine, every other record of the ledger
    stays as it was, the number of open records drops by exactly one, and no
    open record of the book remains. *)
Theorem return_closes_the_open_record
    (ops : list Op) (id : string) (oid : ObjectId) (b : Book.t)
    (user : ObjectId) (currentDate : Date) :
  let s := run castObjectId ops empty_store in
  let s' := snd (returnBook castObjectId id user currentDate s) in
  castObjectId id = Some oid ->
  lookup_book oid (books s) = Some b ->
  Book.borrower b = Some user ->
  exists r0,
    In r0 (borrows s)
    /\ Borrow.book r0 = oid /\ Borrow.user r0 = user
    /\ Borrow.returnedAt r0 = None
    /\ In (Borrow.mk (Borrow._id r0) (Borrow.user r0) (Borrow.book r0)
             (Borrow.borrowedAt r0) (Borrow.dueDate r0) (Some currentDate)
             (late_fine (Book.dueDate b) currentDate))
          (borrows s')
    /\ (forall r, In r (borrows s) -> r <> r0 -> In r (borrows s'))
    /\ S (List.length (filter is_open (borrows s')))
       = List.length (filter is_open (borrows s))
    /\ (forall r, In r (borrows s') -> Borrow.book r = oid ->
          Borrow.returnedAt r <> None).
Proof.
  intros s s' Hcast Hb Hu.
  pose proof (run_ledger_consistent ops empty_store empty_store_consistent)
    as Hinv. fold s in Hinv.
  pose proof (return_keeps_ledger_consistent id user currentDate s Hinv)
    as Hinv'. fold s' in Hinv'.
  destruct Hinv as (_ & (Ubooks & Urecs) & _ & Hhas & _ & _).
  pose proof (lookup_book_In oid _ b Hb) as Hbin.
  pose proof (lookup_book_id oid _ b Hb) as Hid.
  destruct (Hhas b user Hbin Hu) as (r & Hr & Hor).
  destruct (find_exists _ _ r Hr Hor) as (r0 & Hfind).
  destruct (find_some _ _ Hfind) as [Hr0 Hor0].
  apply open_borrow_of_inv in Hor0 as (Hbook0 & Huser0 & Hnull0).
  assert (Hs' : borrows s'
                = replace_borrow
                    (Borrow.mk (Borrow._id r0) (Borrow.user r0) (Borrow.book r0)
                       (Borrow.borrowedAt r0) (Borrow.dueDate r0)
                       (Some currentDate)
                       (late_fine (Book.dueDate b) currentDate))
                    (borrows s)
                /\ lookup_book oid (books s')
                   = Some (Book.mk (Book._id b) (Book.title b) (Book.author b)
                             (Book.category b) (Book.isbn b) (Book.description b)
                             (Book.bookImage b) (Book.availableCopies b + 1)
                             (Book.totalCopies b) Available None None None)).
  { unfold s'.
    rewrite (returnBook_by_borrower castObjectId id oid b user currentDate s
               Hcast Hb Hu).
    cbn [snd borrows books]. rewrite Hfind. split; [reflexivity|].
    now apply (lookup_replace_book oid (books s) b). }
  destruct Hs' as [Hledger Hbook'].
  exists r0. split; [exact Hr0|]. split; [congruence|]. split; [exact Huser0|].
  split; [exact Hnull0|]. rewrite Hledger.
  split; [now apply (In_replace_borrow r0)|].
  split.
  { intros x Hx Hne. apply In_replace_borrow_other; [exact Hx|].
    cbn [Borrow._id]. intros Heq. apply Hne.
    now apply (NoDup_map_eq Borrow._id (borrows s)). }
  split.
  { apply (open_count_after_close (borrows s) r0); try assumption;
      try reflexivity.
    unfold is_open. now rewrite Hnull0. }
  intros x Hx Hbk Hnull. rewrite <- Hledger in Hx.
  destruct Hinv' as (_ & (Ubooks' & _) & _ & _ & Hopen' & _).
  destruct (Hopen' x Hx Hnull) as (y & Hy & Hyid & Hyu).
  assert (Hy' : lookup_book oid (books s') = Some y).
  { pose proof (lookup_book_In oid _ _ Hbook') as Hin2.
    rewrite Hbook'. f_equal.
    apply (NoDup_map_eq Book._id (books s')); try assumption.
    cbn [Book._id]. congruence. }
  rewrite Hbook' in Hy'. injection Hy' as <-. discriminate Hyu.
Qed.

Lemma step_keeps_closed_records (op : Op) (s : Store) (r : Borrow.t) :
  ledger_consistent s ->
  In r (borrows s) ->
  Borrow.returnedAt r <> None ->
  In r (borrows (snd (step castObjectId op s)))
  /\ (List.length (borrows s)
      <= List.length (borrows (snd (step castObjectId op s))))%nat.
Proof.
  intros Hinv Hr Hclosed.
  destruct op as [body file|id user now now'|id user currentDate]; cbn [step].
  - destruct (addBook_effect body file s)
      as [->|(tl & au & ca & isb & t & _ & _ & _ & _ & _ & _ & _ & _ & _ & _ & Heq)];
      [now split|].
    cbn zeta in Heq. rewrite Heq.
    destruct (isbn_taken (nextId s) isb (books s)); now split.
  - destruct (borrowBook_store castObjectId id user now now' s) as [->|Hok];
      [now split|].
    destruct (borrowBook castObjectId id user now now' s) as [r1 s1] eqn:Hrun.
    destruct (borrowBook_success castObjectId id user now now' s s1 r1 Hrun Hok)
      as (oid & b & _ & _ & _ & _ & ->).
    cbn [snd borrows]. split; [apply in_app_iff; now left|].
    rewrite length_app. lia.
  - destruct (returnBook_store castObjectId id user currentDate s)
      as [->|(oid & b & Hcast & Hb & Hu)]; [now split|].
    rewrite (returnBook_by_borrower castObjectId id oid b user currentDate s
               Hcast Hb Hu).
    cbn [snd borrows].
    destruct (find (open_borrow_of (Book._id b) user) (borrows s))
      as [r0|] eqn:Hfind; [|now split].
    destruct (find_some _ _ Hfind) as [Hr0 Hor0].
    apply open_borrow_of_inv in Hor0 as (_ & _ & Hnull0).
    destruct Hinv as (_ & (_ & Urecs) & _).
    split; [|unfold replace_borrow; now rewrite length_map].
    apply In_replace_borrow_other; [exact Hr|].
    cbn [Borrow._id]. intros Heq.
    assert (r = r0) by now apply (NoDup_map_eq Borrow._id (borrows s)).
    subst r. contradiction.
Qed.

(** X19.  The ledger is append-only and a closed record is final: in a
    store built from the empty one by Add, Borrow and Return requests, every
    Borrow record whose returnedAt is set is still in the ledger, unchanged,
    after any further such requests, and the ledger never gets shorter. *)
Theorem closed_records_are_final (before after : list Op) (r : Borrow.t) :
  let s := run castObjectId before empty_store in
  In r (borrows s) ->
  Borrow.returnedAt r <> None ->
  In r (borrows (run castObjectId after s))
  /\ (List.length (borrows s)
      <= List.length (borrows (run castObjectId after s)))%nat.
Proof.
  intros s.
  pose proof (run_ledger_consistent before empty_store empty_store_consistent)
    as Hinv. fold s in Hinv.
  generalize dependent s. induction after as [|op after IH];
    intros s Hinv Hr Hclosed; [now split|].
  unfold run in *. cbn [fold_left].
  destruct (step_keeps_closed_records op s r Hinv Hr Hclosed) as [Hr' Hlen].
  assert (Hinv' : ledger_consistent (snd (step castObjectId op s))).
  { exact (run_ledger_consistent [op] s Hinv). }
  destruct (IH _ Hinv' Hr' Hclosed) as [Hfin Hlen'].
  split; [exact Hfin|lia].
Qed.

(** ** Listing, page by page *)

Lemma getBooks_page (q : Query.t) (s : Store) :
  let page := default (Query.page q) 1 in
  let limit := default (Query.limit q) 10 in
  let matching :=
    filter (Book_matches regex_i
              (mkBookFilter (option_truthy (Query.search q))
                 (option_truthy (Query.category q))
                 (option_truthy (Query.author q))
                 (option_truthy (Query.status q))))
           (books s) in
  1 <= page ->
  1 <= limit ->
  getBooks regex_i q s
  = (mkResponse 200
       (BookPage (Z.of_nat (List.length matching)) page
          (Finite (ceil_div (Z.of_nat (List.length matching)) limit))
          (firstn (Z.to_nat limit)
             (skipn (Z.to_nat ((page - 1) * limit)) matching))), s).
Proof.
  intros page limit matching Hpage Hlimit.
  unfold getBooks, try_catch_500, bind, Book_find, Book_countDocuments.
  fold page limit. cbn zeta.
  destruct (Z.ltb_spec ((page - 1) * limit) 0) as [Hneg|_]; [nia|].
  unfold respond, ret, Math_ceil_div, apply_limit.
  destruct (Z.eqb_spec limit 0) as [H0|_]; [lia|].
  rewrite Z.abs_eq by lia. reflexivity.
Qed.

Lemma option_truthy_inv (x : option string) (v : string) :
  x = Some v -> v <> EmptyString -> option_truthy x = Some v.
Proof.
  intros -> Hv. cbn. unfold truthy, string_ToBoolean.
  destruct (String.eqb_spec v EmptyString); [contradiction|reflexivity].
Qed.

(** X20.  For a page and a limit of at least 1, the listing returns at most
    [limit] books, each of them stored and each passing every filter of the
    query that is not the empty string: its category, author and status
    equal the requested ones, and the search pattern matches its title, its
    author or its category. *)
Theorem listing_respects_the_filters (q : Query.t) (s : Store) :
  1 <= default (Query.page q) 1 ->
  1 <= default (Query.limit q) 10 ->
  Z.of_nat (List.length (page_of (fst (getBooks regex_i q s))))
    <= default (Query.limit q) 10
  /\ forall b, In b (page_of (fst (getBooks regex_i q s))) ->
       In b (books s)
       /\ (forall c, Query.category q = Some c -> c <> EmptyString ->
             Book.category b = c)
       /\ (forall a, Query.author q = Some a -> a <> EmptyString ->
             Book.author b = a)
       /\ (forall st, Query.status q = Some st -> st <> EmptyString ->
             BookStatus_to_string (Book.status b) = st)
       /\ (forall pat, Query.search q = Some pat -> pat <> EmptyString ->
             regex_i pat (Book.title b) || regex_i pat (Book.author b)
             || regex_i pat (Book.category b) = true).
Proof.
  intros Hpage Hlimit.
  rewrite (getBooks_page q s Hpage Hlimit). cbn [fst page_of json].
  split.
  { pose proof (firstn_le_length (Z.to_nat (default (Query.limit q) 10))
                  (skipn (Z.to_nat ((default (Query.page q) 1 - 1)
                                    * default (Query.limit q) 10))
                     (filter (Book_matches regex_i
                                (mkBookFilter (option_truthy (Query.search q))
                                   (option_truthy (Query.category q))
                                   (option_truthy (Query.author q))
                                   (option_truthy (Query.status q))))
                             (books s)))) as Hlen.
    lia. }
  intros b Hb. apply In_firstn in Hb.
  assert (Hm : In b (filter (Book_matches regex_i
                               (mkBookFilter (option_truthy (Query.search q))
                                  (option_truthy (Query.category q))
                                  (option_truthy (Query.author q))
                                  (option_truthy (Query.status q))))
                            (books s))).
  { rewrite <- (firstn_skipn
                  (Z.to_nat ((default (Query.page q) 1 - 1)
                             * default (Query.limit q) 10))).
    apply in_app_iff. now right. }
  apply filter_In in Hm as [Hin Hmatch]. split; [exact Hin|].
  unfold Book_matches in Hmatch. cbn [f_or_regex f_category f_author f_status] in Hmatch.
  apply andb_prop in Hmatch as [Hmatch Hst].
  apply andb_prop in Hmatch as [Hmatch Hau].
  apply andb_prop in Hmatch as [Hse Hca].
  split.
  { intros c Hc Hne. rewrite (option_truthy_inv _ c Hc Hne) in Hca.
    now apply String.eqb_eq in Hca. }
  split.
  { intros a Ha Hne. rewrite (option_truthy_inv _ a Ha Hne) in Hau.
    now apply String.eqb_eq in Hau. }
  split.
  { intros st Hs Hne. rewrite (option_truthy_inv _ st Hs Hne) in Hst.
    now apply String.eqb_eq in Hst. }
  intros pat Hp Hne. now rewrite (option_truthy_inv _ pat Hp Hne) in Hse.
Qed.

Lemma firstn_plus {A} (a b : nat) (l : list A) :
  firstn (a + b) l = firstn a l ++ firstn b (skipn a l).
Proof.
  revert l. induction a as [|a IH]; intros l; [reflexivity|].
  destruct l as [|x l]; cbn.
  - now rewrite firstn_nil.
  - now rewrite IH.
Qed.

Lemma concat_pages {A} (L n : nat) (m : list A) :
  List.concat (map (fun p => firstn L (skipn ((p - 1) * L) m)) (seq 1 n))
  = firstn (n * L) m.
Proof.
  induction n as [|n IH]; [reflexivity|].
  rewrite seq_S, map_app, concat_app, IH. cbn [map List.concat Nat.add].
  rewrite app_nil_r.
  replace (S n - 1)%nat with n by lia.
  replace (S n * L)%nat with (n * L + L)%nat by lia.
  now rewrite firstn_plus.
Qed.

(** X21.  For a limit of at least 1, the pages 1 to totalPages of a query,
    taken in order, hold every matching book exactly as often and in the
    same order as the store does: nothing is skipped and nothing is shown
    on two pages. *)
Theorem pages_partition_the_matches (q : Query.t) (s : Store) :
  let limit := default (Query.limit q) 10 in
  let matching :=
    filter (Book_matches regex_i
              (mkBookFilter (option_truthy (Query.search q))
                 (option_truthy (Query.category q))
                 (option_truthy (Query.author q))
                 (option_truthy (Query.status q))))
           (books s) in
  let totalPages := ceil_div (Z.of_nat (List.length matching)) limit in
  1 <= limit ->
  List.concat (map (fun p => page_of (fst (getBooks regex_i (with_page q (Z.of_nat p)) s)))
              (seq 1 (Z.to_nat totalPages)))
  = matching.
Proof.
  intros limit matching totalPages Hlimit.
  pose proof (ceil_div_bounds (Z.of_nat (List.length matching)) limit ltac:(lia))
    as Hceil. fold totalPages in Hceil.
  assert (Hpages :
    map (fun p => page_of (fst (getBooks regex_i (with_page q (Z.of_nat p)) s)))
        (seq 1 (Z.to_nat totalPages))
    = map (fun p => firstn (Z.to_nat limit)
                      (skipn ((p - 1) * Z.to_nat limit) matching))
          (seq 1 (Z.to_nat totalPages))).
  { apply map_ext_in. intros p Hp. apply in_seq in Hp.
    rewrite (getBooks_page (with_page q (Z.of_nat p)) s);
      [|cbn; lia|exact Hlimit].
    cbn [fst page_of json with_page Query.page Query.limit Query.search
         Query.category Query.author Query.status default].
    fold limit. fold matching. f_equal. f_equal.
    rewrite Z2Nat.inj_mul by lia. f_equal. lia. }
  rewrite Hpages, concat_pages.
  apply firstn_all2. apply Nat2Z.inj_le.
  rewrite Nat2Z.inj_mul, !Z2Nat.id by nia. lia.
Qed.

(** ** A new book on loan *)

(** X22.  A book is borrowable as soon as it is added: after an Add answered
    201 on a store that holds no book under the next identifier, a Borrow of
    the new book by any user is answered 200, because the stored
    availableCopies of a new book is never 0. *)
Theorem added_book_can_be_borrowed
    (body : Body.t) (file : option string) (id : string)
    (user : ObjectId) (now now' : Date) (s : Store) :
  statusCode (fst (addBook body file s)) = 201 ->
  castObjectId id = Some (nextId s) ->
  lookup_book (nextId s) (books s) = None ->
  exists nb,
    fst (addBook body file s) = mkResponse 201 (BookDoc nb)
    /\ Book.availableCopies nb <> 0
    /\ fst (borrowBook castObjectId id user now now' (snd (addBook body file s)))
       = mkResponse 200
           (BorrowedOk "Book borrowed successfully" (Book.title nb) now
              (now' + 604800000)).
Proof.
  intros H201 Hcast Hfresh.
  destruct (addBook_effect body file s)
    as [Heq|(tl & au & ca & isb & t & _ & _ & _ & _ & _ & Ht0 & _ & _ & _ & _ & Heq)];
    [rewrite Heq in H201; discriminate|].
  cbn zeta in Heq. rewrite Heq in H201 |- *.
  destruct (isbn_taken (nextId s) isb (books s)); [discriminate|].
  cbn [fst snd].
  eexists. split; [reflexivity|].
  assert (Hcopies :
    match Body.availableCopies body with
    | Given a => if a =? 0 then t else a
    | _ => t
    end <> 0).
  { destruct (Body.availableCopies body) as [| |a]; try exact Ht0.
    destruct (Z.eqb_spec a 0); assumption. }
  split; [exact Hcopies|].
  erewrite (borrowBook_accepts id (nextId s) _ user now now');
    [reflexivity|exact Hcast| |reflexivity|exact Hcopies|discriminate].
  cbn [books]. rewrite lookup_app_new, Hfresh.
  unfold has_id. cbn [Book._id]. now rewrite N.eqb_refl.
Qed.

(** ** The second guard of Borrow *)

(** In a store built from the empty one by Add, Borrow and Return requests
    the recorded borrower who asks again is always stopped by the
    availability guard: the branch that answers "You have already borrowed
    this book" is never reached. *)
Lemma already_borrowed_answer_unreachable
    (ops : list Op) (id : string) (oid : ObjectId) (b : Book.t)
    (user : ObjectId) (now now' : Date) :
  let s := run castObjectId ops empty_store in
  castObjectId id = Some oid ->
  lookup_book oid (books s) = Some b ->
  Book.borrower b = Some user ->
  borrowBook castObjectId id user now now' s
    = (mkResponse 400 (Message "Book is currently unavailable"), s).
Proof.
  intros s Hcast Hb Hu.
  apply (borrowBook_unavailable id oid b); [exact Hcast|exact Hb|].
  left. apply (recorded_borrower_marked_borrowed castObjectId ops b).
  - exact (lookup_book_In oid _ b Hb).
  - rewrite Hu. discriminate.
Qed.

End Further.

(** * Closed instances of the further properties *)

Lemma ops_borrowed_store : run hex24 ops_borrowed empty_store = store_borrowed.
Proof. reflexivity. Qed.

(** Instance of X2: an identifier that is well formed but not stored. *)
Lemma unknown_id_not_found_witness :
  hex24_valid id5 = true
  /\ hex24 id5 = Some 5%N
  /\ lookup_book 5%N (books store_added) = None
  /\ getBookById hex24_valid hex24 id5 store_added
     = (mkResponse 404 (Message "Book not found"), store_added).
Proof.
  split; [reflexivity|]. split; [reflexivity|]. split; [reflexivity|].
  exact (proj1 (unknown_id_not_found hex24_valid hex24 id5 5%N no_change None
                  alice 0 0 store_added eq_refl eq_refl eq_refl)).
Defined.

(** Instance of X3: Bob asks for the book Alice holds. *)
Lemma borrow_unavailable_refused_witness :
  hex24 id0 = Some 0%N
  /\ lookup_book 0%N (books store_borrowed) = Some book_borrowed
  /\ Book.status book_borrowed = Borrowed
  /\ borrowBook hex24 id0 bob 2000 2000 store_borrowed
     = (mkResponse 400 (Message "Book is currently unavailable"), store_borrowed).
Proof.
  split; [reflexivity|]. split; [reflexivity|]. split; [reflexivity|].
  exact (borrow_unavailable_refused hex24 id0 0%N book_borrowed bob 2000 2000
           store_borrowed eq_refl eq_refl (or_introl eq_refl)).
Defined.

(** Instance of X4: Bob tries to return the book Alice holds. *)
Lemma return_by_other_refused_witness :
  hex24 id0 = Some 0%N
  /\ lookup_book 0%N (books store_borrowed) = Some book_borrowed
  /\ Book.borrower book_borrowed <> Some bob
  /\ returnBook hex24 id0 bob 2000 store_borrowed
     = (mkResponse 400 (Message "You did not borrow this book"), store_borrowed).
Proof.
  assert (Hother : Book.borrower book_borrowed <> Some bob) by discriminate.
  split; [reflexivity|]. split; [reflexivity|]. split; [exact Hother|].
  exact (return_by_other_refused hex24 id0 0%N book_borrowed bob 2000
           store_borrowed eq_refl eq_refl Hother).
Defined.

(** Instance of X5: Alice borrows the book of the scenario. *)
Lemma borrow_succeeds_witness :
  hex24 id0 = Some 0%N
  /\ lookup_book 0%N (books store_added) = Some book_added
  /\ Book.status book_added = Available
  /\ Book.availableCopies book_added <> 0
  /\ Book.borrower book_added <> Some alice
  /\ safe_integer (Book.availableCopies book_added)
  /\ valid_time 1000
  /\ valid_time (1000 + 604800000)
  /\ fst (borrowBook hex24 id0 alice 1000 1000 store_added)
     = mkResponse 200
         (BorrowedOk "Book borrowed successfully" "X" 1000 604801000).
Proof.
  assert (Hcopies : Book.availableCopies book_added <> 0) by discriminate.
  assert (Hfree : Book.borrower book_added <> Some alice) by discriminate.
  assert (Hsafe : safe_integer (Book.availableCopies book_added))
    by (unfold safe_integer; cbn; lia).
  assert (Hnow : valid_time 1000) by (unfold valid_time; lia).
  assert (Hdue : valid_time (1000 + 604800000)) by (unfold valid_time; lia).
  split; [reflexivity|]. split; [reflexivity|]. split; [reflexivity|].
  split; [exact Hcopies|]. split; [exact Hfree|]. split; [exact Hsafe|].
  split; [exact Hnow|]. split; [exact Hdue|].
  exact (proj1 (borrow_succeeds hex24 id0 0%N book_added alice 1000 1000
                  store_added eq_refl eq_refl eq_refl Hcopies Hfree
                  Hsafe Hnow Hdue)).
Defined.

(** Instance of X6: after Alice's Borrow, Bob's Borrow is refused. *)
Lemma borrowed_book_blocks_every_borrow_witness :
  borrowBook hex24 id0 alice 1000 1000 store_added
    = (mkResponse 200
         (BorrowedOk "Book borrowed successfully" "X" 1000 604801000),
       store_borrowed)
  /\ borrowBook hex24 id0 bob 2000 2000 store_borrowed
     = (mkResponse 400 (Message "Book is currently unavailable"), store_borrowed).
Proof.
  split; [reflexivity|].
  exact (borrowed_book_blocks_every_borrow hex24 id0 alice bob 1000 1000
           2000 2000 store_added store_borrowed
           (mkResponse 200
              (BorrowedOk "Book borrowed successfully" "X" 1000 604801000))
           eq_refl eq_refl).
Defined.

(** Instance of X7: Alice returns the book and then tries again. *)
Lemma returned_book_refuses_second_return_witness :
  hex24 id0 = Some 0%N
  /\ lookup_book 0%N (books store_borrowed) = Some book_borrowed
  /\ Book.borrower book_borrowed = Some alice
  /\ statusCode
       (fst (returnBook hex24 id0 alice 691202000
               (snd (returnBook hex24 id0 alice 691201000 store_borrowed))))
     = 400.
Proof.
  split; [reflexivity|]. split; [reflexivity|]. split; [reflexivity|].
  rewrite (returned_book_refuses_second_return hex24 id0 0%N book_borrowed
             alice alice 691201000 691202000 store_borrowed
             eq_refl eq_refl eq_refl).
  reflexivity.
Defined.

(** Instance of X8: the borrowed book is deleted. *)
Lemma delete_removes_only_the_book_witness :
  hex24_valid id0 = true
  /\ hex24 id0 = Some 0%N
  /\ lookup_book 0%N (books store_borrowed) = Some book_borrowed
  /\ fst (deleteBook hex24 id0 store_borrowed)
     = mkResponse 200 (Message "Book deleted successfully")
  /\ borrows store_deleted = [open_record].
Proof.
  split; [reflexivity|]. split; [reflexivity|]. split; [reflexivity|].
  destruct (delete_removes_only_the_book hex24_valid hex24 id0 0%N
              book_borrowed store_borrowed eq_refl eq_refl eq_refl)
    as (Hok & _ & _ & _ & Hledger).
  split; [exact Hok|exact Hledger].
Defined.

(** Instance of X9: the Add of the scenario, then Get. *)
Lemma add_then_get_returns_the_book_witness :
  statusCode (fst (addBook (body_XYZ Undefined 2) None empty_store)) = 201
  /\ hex24_valid id0 = true
  /\ hex24 id0 = Some (nextId empty_store)
  /\ lookup_book (nextId empty_store) (books empty_store) = None
  /\ exists nb,
       fst (addBook (body_XYZ Undefined 2) None empty_store)
         = mkResponse 201 (BookDoc nb)
       /\ getBookById hex24_valid hex24 id0 store_added
          = (mkResponse 200 (BookDoc nb), store_added).
Proof.
  split; [reflexivity|]. split; [reflexivity|]. split; [reflexivity|].
  split; [reflexivity|].
  destruct (add_then_get_returns_the_book hex24_valid hex24
              (body_XYZ Undefined 2) None id0 empty_store
              eq_refl eq_refl eq_refl eq_refl)
    as (nb & Hadd & Hget & _).
  exists nb. split; [exact Hadd|exact Hget].
Defined.

(** Instance of X10: requests to the stored book against identifier 5. *)
Lemma writes_leave_other_books_alone_witness :
  hex24 id0 = Some 0%N
  /\ 5%N <> 0%N
  /\ lookup_book 5%N
       (books (snd (returnBook hex24 id0 alice 691201000 store_borrowed)))
     = lookup_book 5%N (books store_borrowed).
Proof.
  assert (Hne : 5%N <> 0%N) by discriminate.
  split; [reflexivity|]. split; [exact Hne|].
  exact (proj2 (proj2 (proj2
           (writes_leave_other_books_alone hex24 id0 0%N 5%N no_change None
              alice 691201000 0 store_borrowed eq_refl Hne)))).
Defined.

(** Instance of X11: one second late against ten days late. *)
Lemma late_fee_grows_with_lateness_witness :
  604801000 + 1000 <= 604801000 + 10 * 86400000
  /\ 0 <= late_fine (Some 604801000) (604801000 + 1000)
     <= late_fine (Some 604801000) (604801000 + 10 * 86400000).
Proof.
  assert (Hle : 604801000 + 1000 <= 604801000 + 10 * 86400000) by lia.
  split; [exact Hle|].
  exact (proj1 (late_fee_grows_with_lateness 604801000 (604801000 + 1000)
                  (604801000 + 10 * 86400000) Hle)).
Defined.

(** Instance of X12: the history of Alice while she holds the book. *)
Lemma history_lists_the_records_of_the_user_witness :
  (forall r, In r (borrows store_borrowed) -> Borrow.user r = alice ->
     lookup_book (Borrow.book r) (books store_borrowed) <> None)
  /\ exists h,
       getUserHistory alice store_borrowed = (mkResponse 200 (History h), store_borrowed)
       /\ newest_first (map h_borrowedAt h).
Proof.
  assert (Hres : forall r, In r (borrows store_borrowed) -> Borrow.user r = alice ->
                   lookup_book (Borrow.book r) (books store_borrowed) <> None).
  { intros r [<-|[]] _. discriminate. }
  split; [exact Hres|].
  destruct (history_lists_the_records_of_the_user alice store_borrowed Hres)
    as (mine & h & Hresp & _ & _ & Hnew).
  exists h. split; [exact Hresp|exact Hnew].
Defined.

(** Instance of X14: the record of the deleted book. *)
Lemma recent_borrowings_withhold_dangling_records_witness :
  In open_record (borrows store_deleted)
  /\ (List.length (borrows store_deleted) <= 10)%nat
  /\ exists valid log,
       getRecentBorrowings users_alice store_deleted
         = (mkReport 200 (RecentBorrowings valid), log, store_deleted)
       /\ (forall p, In p valid -> pb_record p <> open_record)
       /\ exists invalid,
            log = [Warn_invalid invalid]
            /\ In (1%N, true, false) invalid.
Proof.
  assert (Hin : In open_record (borrows store_deleted)) by (left; reflexivity).
  assert (Hlen : (List.length (borrows store_deleted) <= 10)%nat) by (cbn; lia).
  split; [exact Hin|]. split; [exact Hlen|].
  destruct (recent_borrowings_withhold_dangling_records users_alice
              store_deleted open_record Hin Hlen)
    as (valid & log & Hresp & _ & Hgone).
  exists valid, log. split; [exact Hresp|].
  exact (Hgone (or_introl eq_refl)).
Defined.

(** Instance of X15: the dashboard while the book is on loan, on the due
    date and a day after. *)
Lemma dashboard_counts_are_ordered_witness :
  604801000 <= 604801000 + 86400000
  /\ exists availableBooks borrowedBooks overdueBooks overdueLater,
       getDashboardStats users_alice 604801000 store_borrowed
         = (mkReport 200
              (DashboardStats 1 availableBooks borrowedBooks overdueBooks 1),
            [], store_borrowed)
       /\ 0 <= overdueBooks <= overdueLater
       /\ overdueLater <= borrowedBooks <= 1.
Proof.
  assert (Hle : 604801000 <= 604801000 + 86400000) by lia.
  split; [exact Hle|].
  destruct (dashboard_counts_are_ordered users_alice 604801000
              (604801000 + 86400000) store_borrowed Hle)
    as (a & b & o & o' & H1 & _ & _ & H4 & H5 & _).
  exists a, b, o, o'. split; [exact H1|]. split; [exact H4|exact H5].
Defined.

(** Instance of X18: Alice returns the book of the scenario, a day late. *)
Lemma return_closes_the_open_record_witness :
  hex24 id0 = Some 0%N
  /\ lookup_book 0%N (books (run hex24 ops_borrowed empty_store))
     = Some book_borrowed
  /\ Book.borrower book_borrowed = Some alice
  /\ exists r0,
       In r0 (borrows (run hex24 ops_borrowed empty_store))
       /\ In (Borrow.mk (Borrow._id r0) (Borrow.user r0) (Borrow.book r0)
                (Borrow.borrowedAt r0) (Borrow.dueDate r0) (Some 691201000)
                (late_fine (Book.dueDate book_borrowed) 691201000))
             (borrows (snd (returnBook hex24 id0 alice 691201000
                              (run hex24 ops_borrowed empty_store)))).
Proof.
  split; [reflexivity|]. split; [reflexivity|]. split; [reflexivity|].
  destruct (return_closes_the_open_record hex24 ops_borrowed id0 0%N
              book_borrowed alice 691201000 eq_refl eq_refl eq_refl)
    as (r0 & Hin & _ & _ & _ & Hclosed & _).
  exists r0. split; [exact Hin|exact Hclosed].
Defined.

(** Instance of X19: the closed record of the scenario outlives a second
    round of Borrow and Return by Bob. *)
Lemma closed_records_are_final_witness :
  In closed_record (borrows (run hex24 ops_returned empty_store))
  /\ Borrow.returnedAt closed_record <> None
  /\ In closed_record
       (borrows (run hex24
                   [OpBorrow id0 bob 700000000 700000000;
                    OpReturn id0 bob 700000001]
                   (run hex24 ops_returned empty_store))).
Proof.
  assert (Hin : In closed_record (borrows (run hex24 ops_returned empty_store)))
    by (left; reflexivity).
  assert (Hclosed : Borrow.returnedAt closed_record <> None) by discriminate.
  split; [exact Hin|]. split; [exact Hclosed|].
  exact (proj1 (closed_records_are_final hex24 ops_returned
                  [OpBorrow id0 bob 700000000 700000000;
                   OpReturn id0 bob 700000001]
                  closed_record Hin Hclosed)).
Defined.

(** Instance of X20: the listing filtered by category "Z". *)
Lemma listing_respects_the_filters_witness :
  1 <= default (Query.page query_category_Z) 1
  /\ 1 <= default (Query.limit query_category_Z) 10
  /\ Z.of_nat (List.length (page_of (fst (getBooks no_regex query_category_Z
                                            store_borrowed))))
     <= 10.
Proof.
  assert (Hpage : 1 <= default (Query.page query_category_Z) 1) by (cbn; lia).
  assert (Hlimit : 1 <= default (Query.limit query_category_Z) 10) by (cbn; lia).
  split; [exact Hpage|]. split; [exact Hlimit|].
  exact (proj1 (listing_respects_the_filters no_regex query_category_Z
                  store_borrowed Hpage Hlimit)).
Defined.

(** Instance of X21: the single page of the listing by category "Z". *)
Lemma pages_partition_the_matches_witness :
  1 <= default (Query.limit query_category_Z) 10
  /\ List.concat
       (map (fun p => page_of (fst (getBooks no_regex
                                      (with_page query_category_Z (Z.of_nat p))
                                      store_borrowed)))
            (seq 1 1))
     = [book_borrowed].
Proof.
  assert (Hlimit : 1 <= default (Query.limit query_category_Z) 10) by (cbn; lia).
  split; [exact Hlimit|].
  exact (pages_partition_the_matches no_regex query_category_Z store_borrowed
           Hlimit).
Defined.

(** Instance of X22: Bob borrows the book of the scenario right after the
    Add. *)
Lemma added_book_can_be_borrowed_witness :
  statusCode (fst (addBook (body_XYZ Undefined 2) None empty_store)) = 201
  /\ hex24 id0 = Some (nextId empty_store)
  /\ lookup_book (nextId empty_store) (books empty_store) = None
  /\ exists nb,
       fst (addBook (body_XYZ Undefined 2) None empty_store)
         = mkResponse 201 (BookDoc nb)
       /\ fst (borrowBook hex24 id0 bob 1000 1000 store_added)
          = mkResponse 200
              (BorrowedOk "Book borrowed successfully" (Book.title nb) 1000
                 (1000 + 604800000)).
Proof.
  split; [reflexivity|]. split; [reflexivity|]. split; [reflexivity|].
  destruct (added_book_can_be_borrowed hex24 (body_XYZ Undefined 2) None id0
              bob 1000 1000 empty_store eq_refl eq_refl eq_refl)
    as (nb & Hadd & _ & Hborrow).
  exists nb. split; [exact Hadd|exact Hborrow].
Defined.
